(** * DiabetesGuard: the prediction pipeline of [svm_model.py] and the
      risk colour helper of [app.py]

    The class [DiabetesSVMModel] is embedded as a record of its attributes
    together with a small state-and-exception monad.  Python floats are
    IEEE-754 binary64 numbers and are modelled with the Standard Library's
    [spec_float] at precision 53; scikit-learn, pandas, numpy, joblib and
    matplotlib are outside the repository and enter through the interface
    [Libraries].  The views of [app.py] that call the pipeline and
    [validate_email] of [auth.py] are embedded too; [database.py] is not
    among the sources and enters through the interface [App.Database]. *)

From Stdlib Require Import ZArith List String Bool Lia.
From Stdlib Require Import Floats.SpecFloat.
Import ListNotations.

Set Implicit Arguments.
Open Scope Z_scope.

(* ================================================================== *)
(** * Python floats *)

Definition float : Type := spec_float.

Module PyFloat.

Definition prec : Z := 53.
Definition emax : Z := 1024.

(** [float(n)] for a Python integer [n]. *)
Definition of_int (n : Z) : float := binary_normalize prec emax n 0 false.

(** A decimal literal [n/d], such as [0.3] = [decimal 3 10].  Both [n]
    and [d] are exact in binary64 and the division is correctly rounded,
    so the result is the double nearest to the decimal, which is what the
    Python parser produces. *)
Definition decimal (n d : Z) : float := SFdiv prec emax (of_int n) (of_int d).

Definition add : float -> float -> float := SFadd prec emax.
Definition mul : float -> float -> float := SFmul prec emax.

(** Python [a < b], [a <= b] and [a > b]; any comparison with NaN is
    [False]. *)
Definition ltb (a b : float) : bool := SFltb a b.
Definition leb (a b : float) : bool := SFleb a b.
Definition gtb (a b : float) : bool := SFltb b a.

Definition nan : float := S754_nan.

End PyFloat.

Declare Scope pyfloat_scope.
Delimit Scope pyfloat_scope with py.
Infix "<?" := PyFloat.ltb : pyfloat_scope.
Infix "<=?" := PyFloat.leb : pyfloat_scope.
Infix ">?" := PyFloat.gtb : pyfloat_scope.
Infix "+" := PyFloat.add : pyfloat_scope.
Infix "*" := PyFloat.mul : pyfloat_scope.

(** The float literals of the two source files. *)
Definition f0_3 : float := PyFloat.decimal 3 10.
Definition f0_7 : float := PyFloat.decimal 7 10.
Definition f0_1 : float := PyFloat.decimal 1 10.
Definition f0_08 : float := PyFloat.decimal 8 100.
Definition f0_05 : float := PyFloat.decimal 5 100.
Definition f0_5 : float := PyFloat.decimal 5 10.
Definition f2_5 : float := PyFloat.decimal 25 10.

Definition f0_69 : float := PyFloat.decimal 69 100.
Definition f0_0 : float := PyFloat.of_int 0.
Definition f1_0 : float := PyFloat.of_int 1.

(* ================================================================== *)
(** * Risk tier and risk colour *)

Open Scope string_scope.

(** Lines 121-130 of [DiabetesSVMModel.predict]: the pair
    [(risk_level, recommendation)] chosen from [probability]. *)
Definition risk_assessment (probability : float) : string * string :=
  if (probability <? f0_3)%py then
    ("Low", "Maintain healthy lifestyle with regular checkups")
  else if (probability <? f0_7)%py then
    ("Medium", "Consult healthcare provider and monitor regularly")
  else
    ("High", "Immediate consultation with healthcare provider recommended").

(** [get_risk_color] of [app.py]. *)
Definition get_risk_color (probability : float) : string :=
  if (probability <? f0_3)%py then "#28a745"
  else if (probability <? f0_7)%py then "#ffc107"
  else "#dc3545".

(* ================================================================== *)
(** * Exceptions and results *)

(** The Python exceptions the pipeline can meet.  [NotFittedError] is
    scikit-learn's; every other library failure is an [OtherError] tagged
    with its class name. *)
Inductive exn : Type :=
| AttributeError (name : string)
| IndexError
| NotFittedError
| OtherError (kind : string).

(** The outcome of a call: an exception raised or a value returned. *)
Definition Result (A : Type) : Type := (exn + A)%type.

Definition Matrix : Type := list (list float).

(** [a[i]] on a sequence. *)
Definition getitem {A : Type} (a : list A) (i : nat) : Result A :=
  match nth_error a i with
  | Some x => inr x
  | None => inl IndexError
  end.

(** [a[:, j]] on a two-dimensional array. *)
Fixpoint column (a : Matrix) (j : nat) : Result (list float) :=
  match a with
  | [] => inr []
  | r :: rest =>
      match getitem r j, column rest j with
      | inr x, inr xs => inr (x :: xs)
      | inl e, _ => inl e
      | _, inl e => inl e
      end
  end.

(** Reading an instance attribute that is only bound by [train_model]. *)
Definition getattr {A : Type} (name : string) (slot : option A) : Result A :=
  match slot with
  | Some v => inr v
  | None => inl (AttributeError name)
  end.

(* ================================================================== *)
(** * Data frames *)

(** The dictionary [data] of [load_and_preprocess_data], column by column
    as pandas stores it. *)
Record FeatureFrame : Type := {
  Pregnancies : list Z;
  Glucose : list float;
  BloodPressure : list float;
  SkinThickness : list float;
  Insulin : list float;
  BMI : list float;
  DiabetesPedigreeFunction : list float;
  Age : list Z
}.

(** A frame with its [Outcome] column. *)
Record DataFrame : Type := {
  features : FeatureFrame;
  Outcome : list Z
}.

Definition nrows (X : FeatureFrame) : nat := List.length (Pregnancies X).

(** Row [i] of the feature columns as float64 values, in column order. *)
Definition feature_row (X : FeatureFrame) (i : nat) : list float :=
  [ PyFloat.of_int (nth i (Pregnancies X) 0);
    nth i (Glucose X) PyFloat.nan;
    nth i (BloodPressure X) PyFloat.nan;
    nth i (SkinThickness X) PyFloat.nan;
    nth i (Insulin X) PyFloat.nan;
    nth i (BMI X) PyFloat.nan;
    nth i (DiabetesPedigreeFunction X) PyFloat.nan;
    PyFloat.of_int (nth i (Age X) 0) ].

(** [df.drop('Outcome', axis=1)] as the float64 array scikit-learn makes
    of it. *)
Definition drop_Outcome (df : DataFrame) : Matrix :=
  map (feature_row (features df)) (seq 0 (nrows (features df))).

(** Element-wise arithmetic on columns. *)
Module Series.

Definition mul (s : list float) (k : float) : list float :=
  map (fun x => (x * k)%py) s.

Definition int_mul (s : list Z) (k : float) : list float :=
  map (fun a => (PyFloat.of_int a * k)%py) s.

Fixpoint add (s t : list float) : list float :=
  match s, t with
  | x :: s', y :: t' => (x + y)%py :: add s' t'
  | _, _ => []
  end.

Fixpoint add_int (s : list float) (t : list Z) : list float :=
  match s, t with
  | x :: s', a :: t' => (x + PyFloat.of_int a)%py :: add_int s' t'
  | _, _ => []
  end.

(** [(s > k) * w] on an integer column: [w] where the test holds. *)
Definition int_gt_times (s : list Z) (k w : Z) : list Z :=
  map (fun a => if a >? k then w else 0) s.

(** [(s > k) * w] on a float column compared with the integer [k]. *)
Definition gt_times (s : list float) (k w : Z) : list Z :=
  map (fun x => if (x >? PyFloat.of_int k)%py then w else 0) s.

(** [(s > m).astype(int)]. *)
Definition gt_astype_int (s : list float) (m : float) : list Z :=
  map (fun x => if (x >? m)%py then 1 else 0) s.

(** numpy's [clip(lo, hi)]. *)
Definition clip (lo hi : float) (s : list float) : list float :=
  map (fun x => if (x <? lo)%py then lo else if (x >? hi)%py then hi else x) s.

End Series.

(* ================================================================== *)
(** * A state-and-exception monad

    A method body runs on a state and either returns a value or raises;
    in both cases the assignments made so far remain. *)

Module Py.

Definition M (S A : Type) : Type := S -> Result A * S.

Definition ret {S A : Type} (a : A) : M S A := fun st => (inr a, st).

Definition raise {S A : Type} (e : exn) : M S A := fun st => (inl e, st).

Definition bind {S A B : Type} (c : M S A) (k : A -> M S B) : M S B :=
  fun st =>
    match c st with
    | (inr a, st') => k a st'
    | (inl e, st') => (inl e, st')
    end.

(** A library call that touches no attribute. *)
Definition call {S A : Type} (r : Result A) : M S A := fun st => (r, st).

Definition get {S : Type} : M S S := fun st => (inr st, st).

Definition modify {S : Type} (f : S -> S) : M S unit := fun st => (inr tt, f st).

(** [try: body / except: handler] with a bare [except]. *)
Definition try_except {S A : Type} (body handler : M S A) : M S A :=
  fun st =>
    match body st with
    | (inr a, st') => (inr a, st')
    | (inl _, st') => handler st'
    end.

End Py.

Declare Scope py_monad_scope.
Delimit Scope py_monad_scope with pym.
Notation "x <- c ;; k" := (Py.bind c (fun x => k))
  (at level 61, c at next level, right associativity) : py_monad_scope.
Notation "' p <- c ;; k" := (Py.bind c (fun p => k))
  (at level 61, p pattern, c at next level, right associativity) : py_monad_scope.
Notation "c ;; k" := (Py.bind c (fun _ => k))
  (at level 61, right associativity) : py_monad_scope.

(* ================================================================== *)
(** * The libraries behind the pipeline *)

(** What [svm_model.py] imports.  Every call that can raise returns a
    [Result]; objects that Python mutates in place are returned updated. *)
Class Libraries : Type := {
  (** [sklearn.svm.SVC] *)
  Classifier : Type;
  SVC : Classifier;
  svc_fit : Classifier -> Matrix -> list Z -> Result Classifier;
  svc_predict : Classifier -> Matrix -> Result (list Z);
  svc_predict_proba : Classifier -> Matrix -> Result Matrix;
  svc_classes : Classifier -> list Z;
  (** [sklearn.preprocessing.StandardScaler] *)
  Scaler : Type;
  StandardScaler : Scaler;
  scaler_fitted : Scaler -> bool;
  scaler_fit_transform : Scaler -> Matrix -> Result (Scaler * Matrix);
  scaler_transform : Scaler -> Matrix -> Result Matrix;
  (** [train_test_split(X, y, test_size=0.2, random_state=42, stratify=y)] *)
  train_test_split :
    Matrix -> list Z -> Result (Matrix * Matrix * list Z * list Z);
  (** [sklearn.metrics] *)
  Report : Type;
  accuracy_score : list Z -> list Z -> Result float;
  confusion_matrix : list Z -> list Z -> Result (list (list Z));
  classification_report : list Z -> list Z -> Result Report;
  roc_curve : list Z -> list float -> Result (list float * list float * list float);
  auc : list float -> list float -> Result float;
  (** [pandas.Series.median] *)
  median : list float -> float;
  (** [numpy.random]: the generator state after [seed], and the draws *)
  Rng : Type;
  seed : Z -> Rng;
  randint : Z -> Z -> nat -> Rng -> list Z * Rng;
  normal : Z -> Z -> nat -> Rng -> list float * Rng;
  exponential : float -> nat -> Rng -> list float * Rng;
  (** matplotlib and seaborn: each figure rendered to base64 PNG text *)
  plot_confusion_matrix : list (list Z) -> Result string;
  plot_roc_curve : list float -> list float -> float -> Result string;
  plot_feature_importance : list string -> list float -> Result string
}.

Section Pipeline.

Context {L : Libraries}.

(** ** The object and its surroundings *)

(** The attributes of a [DiabetesSVMModel] instance.  Those bound only by
    [train_model] are [None] until then. *)
Record DiabetesSVMModel : Type := {
  model : Classifier;
  scaler : Scaler;
  is_trained : bool;
  accuracy : option float;
  conf_matrix : option (list (list Z));
  class_report : option Report;
  roc_auc : option float;
  fpr : option (list float);
  tpr : option (list float)
}.

(** What the process sees outside the object: the result of reading
    [diabetes.csv], the result of loading [diabetes_model.pkl], the
    exception [joblib.dump] would raise (if any), and the wall clock
    already formatted with ["%Y-%m-%d %H:%M:%S"]. *)
Record World : Type := {
  diabetes_csv : Result DataFrame;
  diabetes_model_pkl : Result (Classifier * Scaler);
  dump_failure : option exn;
  clock : string
}.

Record State : Type := {
  self : DiabetesSVMModel;
  world : World
}.

Definition M (A : Type) : Type := Py.M State A.

(** [DiabetesSVMModel.__init__] *)
Definition __init__ : DiabetesSVMModel :=
  {| model := SVC;
     scaler := StandardScaler;
     is_trained := false;
     accuracy := None;
     conf_matrix := None;
     class_report := None;
     roc_auc := None;
     fpr := None;
     tpr := None |}.

(** ** Attribute assignment *)

Definition with_self (f : DiabetesSVMModel -> DiabetesSVMModel) : M unit :=
  Py.modify (fun st => {| self := f (self st); world := world st |}).

Definition set_model (m : Classifier) : M unit :=
  with_self (fun s =>
    {| model := m; scaler := scaler s; is_trained := is_trained s;
       accuracy := accuracy s; conf_matrix := conf_matrix s;
       class_report := class_report s; roc_auc := roc_auc s;
       fpr := fpr s; tpr := tpr s |}).

Definition set_scaler (sc : Scaler) : M unit :=
  with_self (fun s =>
    {| model := model s; scaler := sc; is_trained := is_trained s;
       accuracy := accuracy s; conf_matrix := conf_matrix s;
       class_report := class_report s; roc_auc := roc_auc s;
       fpr := fpr s; tpr := tpr s |}).

Definition set_is_trained (b : bool) : M unit :=
  with_self (fun s =>
    {| model := model s; scaler := scaler s; is_trained := b;
       accuracy := accuracy s; conf_matrix := conf_matrix s;
       class_report := class_report s; roc_auc := roc_auc s;
       fpr := fpr s; tpr := tpr s |}).

Definition set_accuracy (v : float) : M unit :=
  with_self (fun s =>
    {| model := model s; scaler := scaler s; is_trained := is_trained s;
       accuracy := Some v; conf_matrix := conf_matrix s;
       class_report := class_report s; roc_auc := roc_auc s;
       fpr := fpr s; tpr := tpr s |}).

Definition set_conf_matrix (v : list (list Z)) : M unit :=
  with_self (fun s =>
    {| model := model s; scaler := scaler s; is_trained := is_trained s;
       accuracy := accuracy s; conf_matrix := Some v;
       class_report := class_report s; roc_auc := roc_auc s;
       fpr := fpr s; tpr := tpr s |}).

Definition set_class_report (v : Report) : M unit :=
  with_self (fun s =>
    {| model := model s; scaler := scaler s; is_trained := is_trained s;
       accuracy := accuracy s; conf_matrix := conf_matrix s;
       class_report := Some v; roc_auc := roc_auc s;
       fpr := fpr s; tpr := tpr s |}).

Definition set_roc_auc (v : float) : M unit :=
  with_self (fun s =>
    {| model := model s; scaler := scaler s; is_trained := is_trained s;
       accuracy := accuracy s; conf_matrix := conf_matrix s;
       class_report := class_report s; roc_auc := Some v;
       fpr := fpr s; tpr := tpr s |}).

Definition set_fpr (v : list float) : M unit :=
  with_self (fun s =>
    {| model := model s; scaler := scaler s; is_trained := is_trained s;
       accuracy := accuracy s; conf_matrix := conf_matrix s;
       class_report := class_report s; roc_auc := roc_auc s;
       fpr := Some v; tpr := tpr s |}).

Definition set_tpr (v : list float) : M unit :=
  with_self (fun s =>
    {| model := model s; scaler := scaler s; is_trained := is_trained s;
       accuracy := accuracy s; conf_matrix := conf_matrix s;
       class_report := class_report s; roc_auc := roc_auc s;
       fpr := fpr s; tpr := Some v |}).

Open Scope py_monad_scope.

(** ** [load_and_preprocess_data] *)

Definition n_samples : nat := 1000.

(** Lines 30-42: the eight columns drawn after [np.random.seed(42)], in
    the order the dictionary literal evaluates them. *)
Definition synthetic_data : FeatureFrame :=
  let g0 := seed 42 in
  let '(pregnancies, g1) := randint 0 17 n_samples g0 in
  let '(glucose, g2) := normal 120 30 n_samples g1 in
  let '(blood_pressure, g3) := normal 70 12 n_samples g2 in
  let '(skin_thickness, g4) := normal 29 10 n_samples g3 in
  let '(insulin, g5) := normal 155 130 n_samples g4 in
  let '(bmi, g6) := normal 32 8 n_samples g5 in
  let '(pedigree, g7) := exponential f0_5 n_samples g6 in
  let '(age, _) := randint 21 81 n_samples g7 in
  {| Pregnancies := pregnancies;
     Glucose := Series.clip (PyFloat.of_int 0) (PyFloat.of_int 200) glucose;
     BloodPressure := Series.clip (PyFloat.of_int 0) (PyFloat.of_int 122) blood_pressure;
     SkinThickness := Series.clip (PyFloat.of_int 0) (PyFloat.of_int 99) skin_thickness;
     Insulin := Series.clip (PyFloat.of_int 0) (PyFloat.of_int 846) insulin;
     BMI := Series.clip (PyFloat.of_int 0) (PyFloat.of_int 67) bmi;
     DiabetesPedigreeFunction := Series.clip (PyFloat.of_int 0) f2_5 pedigree;
     Age := age |}.

(** Lines 47-54: the score column, summed left to right. *)
Definition risk_score (df : FeatureFrame) : list float :=
  Series.add_int
    (Series.add_int
       (Series.add
          (Series.add
             (Series.add
                (Series.mul (Glucose df) f0_1)
                (Series.mul (BMI df) f0_08))
             (Series.int_mul (Age df) f0_05))
          (Series.mul (DiabetesPedigreeFunction df) f0_3))
       (Series.int_gt_times (Pregnancies df) 5 10))
    (Series.gt_times (BloodPressure df) 80 5).

(** Line 56: the [Outcome] column added to a frame. *)
Definition with_Outcome (df : FeatureFrame) : DataFrame :=
  let score := risk_score df in
  {| features := df;
     Outcome := Series.gt_astype_int score (median score) |}.

Definition load_and_preprocess_data : M DataFrame :=
  Py.try_except
    (st <- Py.get ;; Py.call (diabetes_csv (world st)))
    (Py.ret (with_Outcome synthetic_data)).

(** ** [train_model] *)

(** [joblib.dump(obj, 'diabetes_model.pkl')] *)
Definition joblib_dump (obj : Classifier * Scaler) : M unit :=
  fun st =>
    match dump_failure (world st) with
    | Some e => (inl e, st)
    | None =>
        (inr tt,
         {| self := self st;
            world := {| diabetes_csv := diabetes_csv (world st);
                        diabetes_model_pkl := inr obj;
                        dump_failure := None;
                        clock := clock (world st) |} |})
    end.

(** [joblib.load('diabetes_model.pkl')] *)
Definition joblib_load : M (Classifier * Scaler) :=
  st <- Py.get ;; Py.call (diabetes_model_pkl (world st)).

Definition train_model : M bool :=
  df <- load_and_preprocess_data ;;
  let X := drop_Outcome df in
  let y := Outcome df in
  '(X_train, X_test, y_train, y_test) <- Py.call (train_test_split X y) ;;
  st <- Py.get ;;
  '(fitted, X_train_scaled) <- Py.call (scaler_fit_transform (scaler (self st)) X_train) ;;
  set_scaler fitted ;;
  X_test_scaled <- Py.call (scaler_transform fitted X_test) ;;
  st <- Py.get ;;
  clf <- Py.call (svc_fit (model (self st)) X_train_scaled y_train) ;;
  set_model clf ;;
  y_pred <- Py.call (svc_predict clf X_test_scaled) ;;
  proba <- Py.call (svc_predict_proba clf X_test_scaled) ;;
  y_pred_proba <- Py.call (column proba 1) ;;
  v <- Py.call (accuracy_score y_test y_pred) ;;
  set_accuracy v ;;
  v <- Py.call (confusion_matrix y_test y_pred) ;;
  set_conf_matrix v ;;
  v <- Py.call (classification_report y_test y_pred) ;;
  set_class_report v ;;
  '(fpr', tpr', _) <- Py.call (roc_curve y_test y_pred_proba) ;;
  v <- Py.call (auc fpr' tpr') ;;
  set_roc_auc v ;;
  set_fpr fpr' ;;
  set_tpr tpr' ;;
  set_is_trained true ;;
  st <- Py.get ;;
  joblib_dump (model (self st), scaler (self st)) ;;
  Py.ret true.

(** ** [predict] *)

Record PredictionResult : Type := {
  prediction : Z;
  probability : float;
  risk_level : string;
  recommendation : string;
  result : string
}.

(** Lines 103-111: load the saved pair or train. *)
Definition predict_ensure_trained : M unit :=
  st <- Py.get ;;
  if negb (is_trained (self st)) then
    Py.try_except
      (saved_model <- joblib_load ;;
       set_model (fst saved_model) ;;
       set_scaler (snd saved_model) ;;
       set_is_trained true)
      (train_model ;; Py.ret tt)
  else Py.ret tt.

(** Lines 113-138: scale, classify and grade one vector. *)
Definition predict_infer (features : list float) : M PredictionResult :=
  let features_array := [features] in
  st <- Py.get ;;
  features_scaled <- Py.call (scaler_transform (scaler (self st)) features_array) ;;
  labels <- Py.call (svc_predict (model (self st)) features_scaled) ;;
  prediction <- Py.call (getitem labels 0) ;;
  proba <- Py.call (svc_predict_proba (model (self st)) features_scaled) ;;
  row <- Py.call (getitem proba 0) ;;
  probability <- Py.call (getitem row 1) ;;
  let '(risk_level, recommendation) := risk_assessment probability in
  Py.ret {| prediction := prediction;
            probability := probability;
            risk_level := risk_level;
            recommendation := recommendation;
            result := if (prediction =? 1)%Z then "Diabetic" else "Non-Diabetic" |}.

Definition predict (features : list float) : M PredictionResult :=
  predict_ensure_trained ;; predict_infer features.

(** ** [get_performance_plots] *)

Record Plots : Type := {
  plot_cm : string;
  plot_roc : string;
  plot_importance : string
}.

Definition feature_labels : list string :=
  ["Pregnancies"; "Glucose"; "Blood Pressure"; "Skin Thickness";
   "Insulin"; "BMI"; "Diabetes Pedigree"; "Age"].

Definition importance : list float :=
  map (fun n => PyFloat.decimal n 100) [15; 25; 8; 7; 12; 18; 10; 5].

Definition get_performance_plots : M (option Plots) :=
  st <- Py.get ;;
  if negb (is_trained (self st)) then Py.ret None
  else
    cm <- Py.call (getattr "conf_matrix" (conf_matrix (self st))) ;;
    p1 <- Py.call (plot_confusion_matrix cm) ;;
    xs <- Py.call (getattr "fpr" (fpr (self st))) ;;
    ys <- Py.call (getattr "tpr" (tpr (self st))) ;;
    a <- Py.call (getattr "roc_auc" (roc_auc (self st))) ;;
    p2 <- Py.call (plot_roc_curve xs ys a) ;;
    p3 <- Py.call (plot_feature_importance feature_labels importance) ;;
    Py.ret (Some {| plot_cm := p1; plot_roc := p2; plot_importance := p3 |}).

(** ** [get_model_metrics] *)

Record Metrics : Type := {
  metrics_accuracy : float;
  metrics_roc_auc : float;
  metrics_classification_report : Report;
  training_date : string
}.

Definition get_model_metrics : M (option Metrics) :=
  st <- Py.get ;;
  if negb (is_trained (self st)) then Py.ret None
  else
    a <- Py.call (getattr "accuracy" (accuracy (self st))) ;;
    r <- Py.call (getattr "roc_auc" (roc_auc (self st))) ;;
    c <- Py.call (getattr "class_report" (class_report (self st))) ;;
    Py.ret (Some {| metrics_accuracy := a;
                    metrics_roc_auc := r;
                    metrics_classification_report := c;
                    training_date := clock (world st) |}).

End Pipeline.

(* ================================================================== *)
(** * Vocabulary for the statements *)

(** [0 <= p <= 1] on floats; false for NaN. *)
Definition in_unit (p : float) : bool :=
  ((f0_0 <=? p)%py && (p <=? f1_0)%py)%bool.

(** The two class labels of the data model. *)
Definition binary_label (l : Z) : Prop := l = 0 \/ l = 1.

Section Vocabulary.

Context {L : Libraries}.

(** The object after lines 107-109 of [predict]: the loaded pair bound
    and the flag set. *)
Definition loaded (m : Classifier) (s : Scaler) (st : State) : State :=
  {| self := {| model := m; scaler := s; is_trained := true;
                accuracy := accuracy (self st);
                conf_matrix := conf_matrix (self st);
                class_report := class_report (self st);
                roc_auc := roc_auc (self st);
                fpr := fpr (self st); tpr := tpr (self st) |};
     world := world st |}.

(** The three library calls of lines 115-119 all return, with class
    label [label] and class-1 probability [p]. *)
Definition classifies (m : Classifier) (s : Scaler) (x : list float)
           (label : Z) (p : float) : Prop :=
  exists scaled labels proba row,
    scaler_transform s [x] = inr scaled /\
    svc_predict m scaled = inr labels /\
    nth_error labels 0 = Some label /\
    svc_predict_proba m scaled = inr proba /\
    nth_error proba 0 = Some row /\
    nth_error row 1 = Some p.

(** The dictionary of lines 132-138 for a label and a probability. *)
Definition graded (label : Z) (p : float) : PredictionResult :=
  {| prediction := label;
     probability := p;
     risk_level := fst (risk_assessment p);
     recommendation := snd (risk_assessment p);
     result := if (label =? 1)%Z then "Diabetic" else "Non-Diabetic" |}.

(** A classifier that only knows the two labels. *)
Definition binary_classifier (m : Classifier) : Prop :=
  Forall binary_label (svc_classes m).

(** The files around the process hold binary-labelled content: the
    dataset, when it reads, has labels 0 and 1 only, and the artifact,
    when it loads, holds a two-label classifier. *)
Definition binary_world (w : World) : Prop :=
  (forall df, diabetes_csv w = inr df -> Forall binary_label (Outcome df)) /\
  (forall m s, diabetes_model_pkl w = inr (m, s) -> binary_classifier m).

(** Once the flag is set, the classifier in memory is a two-label one. *)
Definition binary_self (o : DiabetesSVMModel) : Prop :=
  is_trained o = true -> binary_classifier (model o).

(** The public methods, and the state a call leaves behind whether it
    returned or raised. *)
Inductive method : Type :=
| call_load_and_preprocess_data
| call_train_model
| call_predict (features : list float)
| call_get_performance_plots
| call_get_model_metrics.

Definition invoke (m : method) (st : State) : State :=
  match m with
  | call_load_and_preprocess_data => snd (load_and_preprocess_data st)
  | call_train_model => snd (train_model st)
  | call_predict x => snd (predict x st)
  | call_get_performance_plots => snd (get_performance_plots st)
  | call_get_model_metrics => snd (get_model_metrics st)
  end.

Definition invoke_all (ms : list method) (st : State) : State :=
  fold_left (fun acc m => invoke m acc) ms st.

End Vocabulary.

(* ================================================================== *)
(** * [train_model] in two parts, and the import of [svm_model] *)

(** [try: body / except Exception as e: handler(e)].  Every exception of
    [exn] is an [Exception]. *)
Definition try_except_as {S A : Type}
           (body : Py.M S A) (handler : exn -> Py.M S A) : Py.M S A :=
  fun st =>
    match body st with
    | (inr a, st') => (inr a, st')
    | (inl e, st') => handler e st'
    end.

(** What the import of [svm_model] prints. *)
Inductive Printed : Type :=
| trained_successfully
| training_failed (e : exn).

Section Training.

Context {L : Libraries}.

Open Scope py_monad_scope.

(** Lines 62-95 of [train_model]: from reading the table to setting the
    flag. *)
Definition fit_and_evaluate : M unit :=
  df <- load_and_preprocess_data ;;
  let X := drop_Outcome df in
  let y := Outcome df in
  '(X_train, X_test, y_train, y_test) <- Py.call (train_test_split X y) ;;
  st <- Py.get ;;
  '(fitted, X_train_scaled) <- Py.call (scaler_fit_transform (scaler (self st)) X_train) ;;
  set_scaler fitted ;;
  X_test_scaled <- Py.call (scaler_transform fitted X_test) ;;
  st <- Py.get ;;
  clf <- Py.call (svc_fit (model (self st)) X_train_scaled y_train) ;;
  set_model clf ;;
  y_pred <- Py.call (svc_predict clf X_test_scaled) ;;
  proba <- Py.call (svc_predict_proba clf X_test_scaled) ;;
  y_pred_proba <- Py.call (column proba 1) ;;
  v <- Py.call (accuracy_score y_test y_pred) ;;
  set_accuracy v ;;
  v <- Py.call (confusion_matrix y_test y_pred) ;;
  set_conf_matrix v ;;
  v <- Py.call (classification_report y_test y_pred) ;;
  set_class_report v ;;
  '(fpr', tpr', _) <- Py.call (roc_curve y_test y_pred_proba) ;;
  v <- Py.call (auc fpr' tpr') ;;
  set_roc_auc v ;;
  set_fpr fpr' ;;
  set_tpr tpr' ;;
  set_is_trained true.

(** Lines 98-99 of [train_model]. *)
Definition save_artifact : M bool :=
  st <- Py.get ;;
  joblib_dump (model (self st), scaler (self st)) ;;
  Py.ret true.

(** Lines 223-229 of [svm_model.py], run when the module is imported; the
    value is the line printed. *)
Definition import_svm_model : M Printed :=
  Py.modify (fun st => {| self := __init__; world := world st |}) ;;
  try_except_as
    (train_model ;; Py.ret trained_successfully)
    (fun e => Py.ret (training_failed e)).

End Training.

(** A property of the state that a computation keeps as long as it has
    not returned. *)
Definition preserves_on_raise {S A : Type} (P : S -> Prop) (c : Py.M S A) : Prop :=
  forall st, P st -> forall e st', c st = (inl e, st') -> P st'.

Section Agreement.

Context {L : Libraries}.

(** Two states with the same object beside the same dataset. *)
Definition same_inputs (a b : State) : Prop :=
  self a = self b /\ diabetes_csv (world a) = diabetes_csv (world b).

(** Two computations that cannot tell such states apart. *)
Definition agree {A : Type} (c1 c2 : M A) : Prop :=
  forall a b, same_inputs a b ->
    fst (c1 a) = fst (c2 b) /\ same_inputs (snd (c1 a)) (snd (c2 b)).

(** The classifier is the one the call started with, or a two-label
    one. *)
Definition kept_or_binary (m0 : Classifier) (st : State) : Prop :=
  model (self st) = m0 \/ binary_classifier (model (self st)).

End Agreement.

(** A number between two bounds, or NaN. *)
Definition within (lo hi : float) (y : float) : Prop :=
  y = PyFloat.nan \/ ((lo <=? y)%py = true /\ (y <=? hi)%py = true).

(* ================================================================== *)
(** * The routes of [app.py] that call the pipeline *)

Module App.

(** [database.py] is not among the sources: its [save_prediction] enters
    as an interface, acting on whatever the database holds. *)
Class Database : Type := {
  Db : Type;
  save_prediction :
    Z -> list (string * float) -> string -> float -> string ->
    Db -> Result unit * Db
}.

Inductive Method : Type := GET | HEAD | POST.

(** What a view reads of the request: the method, the URL, whether the
    session holds ['user_id'] and which, and the outcome of
    [request.get_json()]; a body that parses is given by what
    [float(data[key])] yields for each key. *)
Record Request : Type := {
  request_method : Method;
  request_url : string;
  session_user_id : option Z;
  request_get_json : Result (string -> Result float)
}.

(** The text of an error answer: [str(e)] or a literal. *)
Inductive ErrorText : Type :=
| str (e : exn)
| literal (s : string).

Section Views.

Context {L : Libraries} {D : Database}.

(** What a view answers: a page, a redirect to the login page with a
    flashed message, or one of the three JSON bodies. *)
Inductive Response : Type :=
| render_template (name : string)
| redirect_login (flashed : string) (next : string)
| jsonify_prediction (label : Z) (p : float) (tier advice text : string)
| jsonify_performance (metrics : option Metrics) (plots : option Plots)
| jsonify_failure (error : ErrorText).

(** The process: the global [diabetes_model] and the database. *)
Record Server : Type := {
  diabetes_model : State;
  database : Db
}.

Definition View : Type := Request -> Py.M Server Response.

(** A method call on the global object. *)
Definition on_model {A : Type} (c : M A) : Py.M Server A :=
  fun sv =>
    let (r, st) := c (diabetes_model sv) in
    (r, {| diabetes_model := st; database := database sv |}).

(** A call into [database.py]. *)
Definition on_database {A : Type} (c : Db -> Result A * Db) : Py.M Server A :=
  fun sv =>
    let (r, db) := c (database sv) in
    (r, {| diabetes_model := diabetes_model sv; database := db |}).

(** [session['user_id']] *)
Definition session_getitem_user_id (rq : Request) : Result Z :=
  match session_user_id rq with
  | Some uid => inr uid
  | None => inl (OtherError "KeyError")
  end.

(** [login_required] of [auth.py]. *)
Definition login_required (f : View) : View :=
  fun rq =>
    match session_user_id rq with
    | None =>
        Py.ret (redirect_login "Please log in to access this page."
                               (request_url rq))
    | Some _ => f rq
    end.

(** The keys of the dictionary [predict] returns, and its truth value. *)
Definition keys (r : PredictionResult) : list string :=
  ["prediction"; "probability"; "risk_level"; "recommendation"; "result"].

Definition truthy (r : PredictionResult) : bool :=
  negb (Nat.eqb (List.length (keys r)) 0).

Open Scope py_monad_scope.

(** The body of [prediction], lines 101-138. *)
Definition prediction_body : View :=
  fun rq =>
    match request_method rq with
    | POST =>
        try_except_as
          (data <- Py.call (request_get_json rq) ;;
           pregnancies <- Py.call (data "pregnancies") ;;
           glucose <- Py.call (data "glucose") ;;
           blood_pressure <- Py.call (data "blood_pressure") ;;
           skin_thickness <- Py.call (data "skin_thickness") ;;
           insulin <- Py.call (data "insulin") ;;
           bmi <- Py.call (data "bmi") ;;
           diabetes_pedigree <- Py.call (data "diabetes_pedigree") ;;
           age <- Py.call (data "age") ;;
           let features :=
             [("pregnancies", pregnancies); ("glucose", glucose);
              ("blood_pressure", blood_pressure);
              ("skin_thickness", skin_thickness); ("insulin", insulin);
              ("bmi", bmi); ("diabetes_pedigree", diabetes_pedigree);
              ("age", age)] in
           r <- on_model (predict (map snd features)) ;;
           if truthy r then
             user_id <- Py.call (session_getitem_user_id rq) ;;
             on_database
               (save_prediction user_id features (result r)
                                (probability r) (risk_level r)) ;;
             Py.ret (jsonify_prediction (prediction r) (probability r)
                                        (risk_level r) (recommendation r)
                                        (result r))
           else Py.ret (jsonify_failure (literal "Prediction failed")))
          (fun e => Py.ret (jsonify_failure (str e)))
    | _ => Py.ret (render_template "prediction.html")
    end.

(** The body of [get_performance], lines 203-213. *)
Definition get_performance_body : View :=
  fun rq =>
    try_except_as
      (metrics <- on_model get_model_metrics ;;
       plots <- on_model get_performance_plots ;;
       Py.ret (jsonify_performance metrics plots))
      (fun e => Py.ret (jsonify_failure (str e))).

(** Line 92 of [dashboard]: [predictions[:5] if predictions else []]. *)
Definition recent_predictions {A : Type} (predictions : list A) : list A :=
  match predictions with
  | [] => []
  | _ :: _ => firstn 5 predictions
  end.

(** The two views as the module binds them, decorated. *)
Definition prediction : View := login_required prediction_body.

Definition get_performance : View := login_required get_performance_body.

End Views.

End App.

(* ================================================================== *)
(** * Vocabulary for the views *)

Section ViewVocabulary.

Context {L : Libraries} {D : App.Database}.

(** The dictionary [features] of lines 105-114 for eight numbers. *)
Definition features_of (v : list float) : list (string * float) :=
  combine ["pregnancies"; "glucose"; "blood_pressure"; "skin_thickness";
           "insulin"; "bmi"; "diabetes_pedigree"; "age"] v.

(** Lines 116-136 once the eight fields have converted. *)
Definition answer (rq : App.Request) (v : list float) : Py.M App.Server App.Response :=
  (fun sv =>
     match App.on_model (predict v) sv with
     | (inl e, sv1) => (inr (App.jsonify_failure (App.str e)), sv1)
     | (inr r, sv1) =>
         match App.session_getitem_user_id rq with
         | inl e => (inr (App.jsonify_failure (App.str e)), sv1)
         | inr uid =>
             match App.on_database
                     (App.save_prediction uid (features_of v) (result r)
                                          (probability r) (risk_level r)) sv1 with
             | (inl e, sv2) => (inr (App.jsonify_failure (App.str e)), sv2)
             | (inr _, sv2) =>
                 (inr (App.jsonify_prediction (prediction r) (probability r)
                         (risk_level r) (recommendation r) (result r)), sv2)
             end
         end
     end).

(** A POST whose body parses and whose eight fields convert. *)
Definition converts (data : string -> Result float) (v : list float) : Prop :=
  exists v1 v2 v3 v4 v5 v6 v7 v8,
    v = [v1; v2; v3; v4; v5; v6; v7; v8] /\
    data "pregnancies" = inr v1 /\ data "glucose" = inr v2 /\
    data "blood_pressure" = inr v3 /\ data "skin_thickness" = inr v4 /\
    data "insulin" = inr v5 /\ data "bmi" = inr v6 /\
    data "diabetes_pedigree" = inr v7 /\ data "age" = inr v8.

(** A POST whose body does not parse, or with a field that does not
    convert: the first failure, in the order of lines 106-113. *)
Definition first_failure (rq : App.Request) (e : exn) : Prop :=
  App.request_get_json rq = inl e \/
  exists data before k after,
    App.request_get_json rq = inr data /\
    ["pregnancies"; "glucose"; "blood_pressure"; "skin_thickness";
     "insulin"; "bmi"; "diabetes_pedigree"; "age"] = (before ++ k :: after)%list /\
    Forall (fun k' => exists v, data k' = inr v) before /\
    data k = inl e.

End ViewVocabulary.

(* ================================================================== *)
(** * [validate_email] of [auth.py] *)

(** A Python string as the list of its code points. *)
Definition text : Type := list N.

Definition codepoints (s : string) : text :=
  map Ascii.N_of_ascii (list_ascii_of_string s).

(** The part of [re] the pattern of [validate_email] uses. *)
Module Re.

Local Open Scope list_scope.

Inductive regex : Type :=
| Empty
| Eps
| Class (p : N -> bool)
| Cat (r1 r2 : regex)
| Alt (r1 r2 : regex)
| Star (r : regex).

(** [r+] and [r{n,}]. *)
Definition Plus (r : regex) : regex := Cat r (Star r).

Fixpoint AtLeast (n : nat) (r : regex) : regex :=
  match n with
  | O => Star r
  | S n' => Cat r (AtLeast n' r)
  end.

(** The strings a pattern matches from end to end. *)
Inductive matches : regex -> text -> Prop :=
| matches_Eps : matches Eps []
| matches_Class p c : p c = true -> matches (Class p) [c]
| matches_Cat r1 r2 s1 s2 :
    matches r1 s1 -> matches r2 s2 -> matches (Cat r1 r2) (s1 ++ s2)
| matches_Alt_l r1 r2 s : matches r1 s -> matches (Alt r1 r2) s
| matches_Alt_r r1 r2 s : matches r2 s -> matches (Alt r1 r2) s
| matches_Star_nil r : matches (Star r) []
| matches_Star_cons r s1 s2 :
    matches r s1 -> matches (Star r) s2 -> matches (Star r) (s1 ++ s2).

(** Matching by derivatives. *)
Fixpoint nullable (r : regex) : bool :=
  match r with
  | Empty => false
  | Eps => true
  | Class _ => false
  | Cat r1 r2 => nullable r1 && nullable r2
  | Alt r1 r2 => nullable r1 || nullable r2
  | Star _ => true
  end.

Fixpoint deriv (c : N) (r : regex) : regex :=
  match r with
  | Empty => Empty
  | Eps => Empty
  | Class p => if p c then Eps else Empty
  | Cat r1 r2 =>
      if nullable r1 then Alt (Cat (deriv c r1) r2) (deriv c r2)
      else Cat (deriv c r1) r2
  | Alt r1 r2 => Alt (deriv c r1) (deriv c r2)
  | Star r1 => Cat (deriv c r1) (Star r1)
  end.

Fixpoint fullmatch (r : regex) (s : text) : bool :=
  match s with
  | [] => nullable r
  | c :: s' => fullmatch (deriv c r) s'
  end.

(** The string without its final newline, when it ends in one. *)
Definition before_final_newline (s : text) : option text :=
  match rev s with
  | 10%N :: t => Some (rev t)
  | _ => None
  end.

(** [re.match('^' + r + '$', s) is not None], with no flags: [$]
    matches at the end of the string and also just before a newline
    that ends it. *)
Definition match_to_dollar (r : regex) (s : text) : bool :=
  fullmatch r s ||
  match before_final_newline s with
  | Some s' => fullmatch r s'
  | None => false
  end.

End Re.

Definition in_range (lo hi c : N) : bool := (lo <=? c)%N && (c <=? hi)%N.

(** [a-zA-Z] *)
Definition letter (c : N) : bool :=
  in_range 97 122 c || in_range 65 90 c.

(** [a-zA-Z0-9.-] *)
Definition domain_char (c : N) : bool :=
  letter c || in_range 48 57 c || (c =? 46)%N || (c =? 45)%N.

(** [a-zA-Z0-9._%+-] *)
Definition local_char (c : N) : bool :=
  letter c || in_range 48 57 c ||
  (c =? 46)%N || (c =? 95)%N || (c =? 37)%N || (c =? 43)%N || (c =? 45)%N.

(** The pattern of line 30 between [^] and [$]. *)
Definition pattern : Re.regex :=
  Re.Cat (Re.Plus (Re.Class local_char))
    (Re.Cat (Re.Class (N.eqb 64))
       (Re.Cat (Re.Plus (Re.Class domain_char))
          (Re.Cat (Re.Class (N.eqb 46))
             (Re.AtLeast 2 (Re.Class letter))))).

Definition validate_email (email : text) : bool :=
  Re.match_to_dollar pattern email.

Section Address.

Local Open Scope list_scope.

(** The shape the pattern describes: a local part, an at sign, a domain
    part, a dot and at least two letters. *)
Definition address (l d t : text) : Prop :=
  l <> [] /\ Forall (fun c => local_char c = true) l /\
  d <> [] /\ Forall (fun c => domain_char c = true) d /\
  (2 <= List.length t)%nat /\ Forall (fun c => letter c = true) t.

End Address.

(* ================================================================== *)
(** * A small executable instance of the libraries

    Used to run the pipeline on concrete inputs.  The classifier keeps only
    the labels it was fitted on and reads class-1 probability off the first
    scaled feature; the scaler is the identity once fitted. *)

Module Toy.

Definition score (row : list float) : float :=
  let x := hd PyFloat.nan row in
  if in_unit x then x else f0_5.

Definition fit (m : list Z) (X : Matrix) (y : list Z) : Result (list Z) :=
  let classes := nodup Z.eq_dec y in
  if (List.length classes <? 2)%nat then inl (OtherError "ValueError")
  else inr classes.

Definition label (m : list Z) (row : list float) : Z :=
  if (f0_5 <=? score row)%py then last m 0 else hd 0 m.

Definition predict (m : list Z) (X : Matrix) : Result (list Z) :=
  match m with
  | [] => inl NotFittedError
  | _ => inr (map (label m) X)
  end.

Definition predict_proba (m : list Z) (X : Matrix) : Result Matrix :=
  match m with
  | [] => inl NotFittedError
  | _ => inr (map (fun row => [f0_5; score row]) X)
  end.

Definition fit_transform (s : bool) (X : Matrix) : Result (bool * Matrix) :=
  inr (true, X).

Definition transform (s : bool) (X : Matrix) : Result Matrix :=
  if s then inr X else inl NotFittedError.

Definition split (X : Matrix) (y : list Z)
  : Result (Matrix * Matrix * list Z * list Z) :=
  let k := (List.length y * 4 / 5)%nat in
  inr (firstn k X, skipn k X, firstn k y, skipn k y).

Definition middle (s : list float) : float :=
  nth (List.length s / 2) s PyFloat.nan.

Definition draw_int (lo hi : Z) (n : nat) (g : Z) : list Z * Z :=
  (map (fun i => lo + (g + 7 * Z.of_nat i) mod (hi - lo)) (seq 0 n), g + 1).

Definition draw_normal (loc scale : Z) (n : nat) (g : Z) : list float * Z :=
  (map (fun i => PyFloat.of_int
                   (loc + (g + 13 * Z.of_nat i) mod (2 * scale + 1) - scale))
       (seq 0 n),
   g + 1).

Definition draw_exponential (scale : float) (n : nat) (g : Z) : list float * Z :=
  (repeat scale n, g + 1).

Definition libraries : Libraries :=
  {| Classifier := list Z;
     SVC := [];
     svc_fit := fit;
     svc_predict := predict;
     svc_predict_proba := predict_proba;
     svc_classes := fun m => m;
     Scaler := bool;
     StandardScaler := false;
     scaler_fitted := fun s => s;
     scaler_fit_transform := fit_transform;
     scaler_transform := transform;
     train_test_split := split;
     Report := unit;
     accuracy_score := fun _ _ => inr f1_0;
     confusion_matrix := fun _ _ => inr [[0; 0]; [0; 0]];
     classification_report := fun _ _ => inr tt;
     roc_curve := fun _ _ => inr ([f0_0; f1_0], [f0_0; f1_0], [f1_0; f0_0]);
     auc := fun _ _ => inr f0_5;
     median := middle;
     Rng := Z;
     seed := fun z => z;
     randint := draw_int;
     normal := draw_normal;
     exponential := draw_exponential;
     plot_confusion_matrix := fun _ => inr "cm.png";
     plot_roc_curve := fun _ _ _ => inr "roc.png";
     plot_feature_importance := fun _ _ => inr "importance.png" |}.

Definition missing : exn := OtherError "FileNotFoundError".

(** A directory with neither [diabetes.csv] nor [diabetes_model.pkl]. *)
Definition empty_world : World (L := libraries) :=
  {| diabetes_csv := inl missing;
     diabetes_model_pkl := inl missing;
     dump_failure := None;
     clock := "2024-05-01 12:00:00" |}.

(** A freshly constructed object in the empty directory. *)
Definition fresh : State (L := libraries) :=
  {| self := __init__; world := empty_world |}.

(** The same directory holding an artifact. *)
Definition world_with (m : @Classifier libraries) (s : @Scaler libraries)
  : World (L := libraries) :=
  {| diabetes_csv := inl missing;
     diabetes_model_pkl := inr (m, s);
     dump_failure := None;
     clock := "2024-05-01 12:00:00" |}.

(** A feature vector whose first entry is [p]. *)
Definition vector (p : float) : list float :=
  p :: map PyFloat.of_int [120; 70; 29; 155; 32; 1; 40].

(** The state a training run leaves from [fresh]. *)
Definition trained : State (L := libraries) := snd (train_model fresh).

(** A fitted classifier and a scaler that was never fitted. *)
Definition two_classes : @Classifier libraries := [0; 1].
Definition unfitted : @Scaler libraries := false.

(** A new object beside an artifact whose scaler was never fitted. *)
Definition beside_unfitted : State (L := libraries) :=
  {| self := __init__; world := world_with two_classes unfitted |}.

End Toy.

(* ================================================================== *)
(** * More concrete surroundings *)

Module Scenario.





(** The libraries with a classifier that reports one probability
    column, as one fitted on a single class does. *)
Definition one_class_libraries : Libraries :=
  {| Classifier := list Z;
     SVC := [];
     svc_fit := Toy.fit;
     svc_predict := Toy.predict;
     svc_predict_proba := fun _ X => inr (map (fun _ => [f1_0]) X);
     svc_classes := fun m => m;
     Scaler := bool;
     StandardScaler := false;
     scaler_fitted := fun s => s;
     scaler_fit_transform := Toy.fit_transform;
     scaler_transform := Toy.transform;
     train_test_split := Toy.split;
     Report := unit;
     accuracy_score := fun _ _ => inr f1_0;
     confusion_matrix := fun _ _ => inr [[0; 0]; [0; 0]];
     classification_report := fun _ _ => inr tt;
     roc_curve := fun _ _ => inr ([f0_0; f1_0], [f0_0; f1_0], [f1_0; f0_0]);
     auc := fun _ _ => inr f0_5;
     median := Toy.middle;
     Rng := Z;
     seed := fun z => z;
     randint := Toy.draw_int;
     normal := Toy.draw_normal;
     exponential := Toy.draw_exponential;
     plot_confusion_matrix := fun _ => inr "cm.png";
     plot_roc_curve := fun _ _ _ => inr "roc.png";
     plot_feature_importance := fun _ _ => inr "importance.png" |}.

Definition only_diabetic : @Classifier one_class_libraries := [1].
Definition fitted_scaler : @Scaler one_class_libraries := true.

(** An object holding such a classifier, with the flag set. *)
Definition one_class : State (L := one_class_libraries) :=
  {| self := {| model := only_diabetic; scaler := fitted_scaler;
                is_trained := true;
                accuracy := None; conf_matrix := None; class_report := None;
                roc_auc := None; fpr := None; tpr := None |};
     world := {| diabetes_csv := inl Toy.missing;
                 diabetes_model_pkl := inl Toy.missing;
                 dump_failure := None;
                 clock := "2024-05-01 12:00:00" |} |}.

(** A database that keeps the rows it is given. *)
Definition rows : App.Database :=
  {| App.Db := list (Z * list (string * float) * string * float * string);
     App.save_prediction := fun uid features text p tier db =>
       (inr tt, (uid, features, text, p, tier) :: db) |}.

Definition no_rows : @App.Db rows := [].

(** A process whose model has been trained, with an empty database. *)
Definition server : App.Server (L := Toy.libraries) (D := rows) :=
  {| App.diabetes_model := Toy.trained; App.database := no_rows |}.

(** A process whose model is new, beside an artifact. *)
Definition cold_server : App.Server (L := Toy.libraries) (D := rows) :=
  {| App.diabetes_model := Toy.beside_unfitted; App.database := no_rows |}.

(** The JSON body of a form filled with [Toy.vector p]. *)
Definition form (p : float) (key : string) : Result float :=
  if String.eqb key "pregnancies" then inr p
  else if String.eqb key "glucose" then inr (PyFloat.of_int 120)
  else if String.eqb key "blood_pressure" then inr (PyFloat.of_int 70)
  else if String.eqb key "skin_thickness" then inr (PyFloat.of_int 29)
  else if String.eqb key "insulin" then inr (PyFloat.of_int 155)
  else if String.eqb key "bmi" then inr (PyFloat.of_int 32)
  else if String.eqb key "diabetes_pedigree" then inr (PyFloat.of_int 1)
  else if String.eqb key "age" then inr (PyFloat.of_int 40)
  else inl (OtherError "KeyError").

(** The same form with the insulin field left empty. *)
Definition form_without_insulin (key : string) : Result float :=
  if String.eqb key "insulin" then inl (OtherError "ValueError")
  else form f0_7 key.

Definition post (uid : option Z) (data : string -> Result float) : App.Request :=
  {| App.request_method := App.POST;
     App.request_url := "http://localhost/prediction";
     App.session_user_id := uid;
     App.request_get_json := inr data |}.

End Scenario.


(* ================================================================== *)
(** * Facts about float comparison *)

Lemma SFcompare_antisym (a b : float) :
  SFcompare b a = option_map CompOpp (SFcompare a b).
Proof.
  destruct a as [sa|sa| |sa ma ea], b as [sb|sb| |sb mb eb];
    try reflexivity;
    try (destruct sa; reflexivity); try (destruct sb; reflexivity);
    try (destruct sa, sb; reflexivity).
  assert (Hm : Pos.compare_cont Eq ma mb = CompOpp (Pos.compare_cont Eq mb ma))
    by (rewrite Pos.compare_cont_antisym; reflexivity).
  unfold SFcompare, option_map.
  rewrite (Z.compare_antisym eb ea), Hm.
  destruct sa, sb; try reflexivity;
    destruct (eb ?= ea)%Z; cbn [CompOpp]; try reflexivity;
    destruct (Pos.compare_cont Eq mb ma); reflexivity.
Qed.


(** The two thresholds as binary64 numbers: mantissa and exponent. *)
Lemma f0_3_bits : f0_3 = S754_finite false 5404319552844595 (-54).
Proof. vm_compute. reflexivity. Qed.

Lemma f0_7_bits : f0_7 = S754_finite false 6305039478318694 (-53).
Proof. vm_compute. reflexivity. Qed.






(* ================================================================== *)
(** * Running a method body step by step *)

Lemma bind_run {S A B : Type} (c : Py.M S A) (k : A -> Py.M S B) st r st' :
  Py.bind c k st = (r, st') ->
  (exists e, c st = (inl e, st') /\ r = inl e) \/
  (exists a st1, c st = (inr a, st1) /\ k a st1 = (r, st')).
Proof.
  unfold Py.bind. destruct (c st) as [[e|a] st1]; intros H.
  - left. exists e. inversion H; subst. split; reflexivity.
  - right. exists a, st1. split; [reflexivity | exact H].
Qed.

Lemma bind_inr {S A B : Type} (c : Py.M S A) (k : A -> Py.M S B) st b st' :
  Py.bind c k st = (inr b, st') ->
  exists a st1, c st = (inr a, st1) /\ k a st1 = (inr b, st').
Proof.
  intros H. apply bind_run in H.
  destruct H as [(e & _ & H) | H]; [discriminate | exact H].
Qed.

Lemma bind_eq {S A B : Type} (c : Py.M S A) (k : A -> Py.M S B) st a st1 :
  c st = (inr a, st1) -> Py.bind c k st = k a st1.
Proof. intros H. unfold Py.bind. rewrite H. reflexivity. Qed.


(** A primitive step, read off its definition. *)
Ltac prim H :=
  cbv [Py.ret Py.call Py.get Py.modify Py.raise with_self set_model set_scaler
       set_is_trained set_accuracy set_conf_matrix set_class_report set_roc_auc
       set_fpr set_tpr joblib_load] in H;
  inversion H; subst; clear H.

(** One successful step of a body that returned. *)
Ltac ok_step H :=
  let a := fresh "v" in
  let st1 := fresh "st" in
  let Hc := fresh "Hc" in
  apply bind_inr in H; destruct H as (a & st1 & Hc & H);
  first [ prim Hc | idtac ];
  repeat match type of H with
         | context [let (_, _) := ?p in _] => is_var p; destruct p
         end.

(** A property of the state that a computation keeps, however it ends. *)
Definition preserves {S A : Type} (P : S -> Prop) (c : Py.M S A) : Prop :=
  forall st, P st -> P (snd (c st)).

Lemma preserves_ret {S A : Type} (P : S -> Prop) (a : A) :
  preserves P (Py.ret a).
Proof. intros st H. exact H. Qed.

Lemma preserves_call {S A : Type} (P : S -> Prop) (r : Result A) :
  preserves P (Py.call r).
Proof. intros st H. exact H. Qed.

Lemma preserves_bind {S A B : Type} (P : S -> Prop)
      (c : Py.M S A) (k : A -> Py.M S B) :
  preserves P c -> (forall a, preserves P (k a)) -> preserves P (Py.bind c k).
Proof.
  intros Hc Hk st H. unfold Py.bind.
  specialize (Hc st H). destruct (c st) as [[e|a] st1]; cbn [snd] in *.
  - exact Hc.
  - apply Hk. exact Hc.
Qed.

Lemma preserves_get_bind {S B : Type} (P : S -> Prop) (k : S -> Py.M S B) :
  (forall st0, preserves P (k st0)) -> preserves P (Py.bind Py.get k).
Proof. intros Hk st H. unfold Py.bind, Py.get. apply Hk. exact H. Qed.

Lemma preserves_try_except {S A : Type} (P : S -> Prop) (body handler : Py.M S A) :
  preserves P body -> preserves P handler -> preserves P (Py.try_except body handler).
Proof.
  intros Hb Hh st H. unfold Py.try_except.
  specialize (Hb st H). destruct (body st) as [[e|a] st1]; cbn [snd] in *.
  - apply Hh. exact Hb.
  - exact Hb.
Qed.

Lemma preserves_modify {S : Type} (P : S -> Prop) (f : S -> S) :
  (forall st, P st -> P (f st)) -> preserves P (Py.modify f).
Proof. intros Hf st H. apply Hf. exact H. Qed.

Create HintDb preserve.
#[export] Hint Resolve preserves_ret preserves_call preserves_try_except : preserve.

(* ================================================================== *)
(** * The pipeline, method by method *)

Section PipelineFacts.

Context {L : Libraries}.

(** ** Loading the table *)

Lemma load_and_preprocess_data_eq (st : State) :
  load_and_preprocess_data st =
    (inr match diabetes_csv (world st) with
         | inr df => df
         | inl _ => with_Outcome synthetic_data
         end, st).
Proof.
  unfold load_and_preprocess_data, Py.try_except, Py.bind, Py.get, Py.call, Py.ret.
  destruct (diabetes_csv (world st)); reflexivity.
Qed.

(** ** Saving the artifact *)

Lemma joblib_dump_inr obj (st : State) u st' :
  joblib_dump obj st = (inr u, st') ->
  dump_failure (world st) = None /\
  st' = {| self := self st;
           world := {| diabetes_csv := diabetes_csv (world st);
                       diabetes_model_pkl := inr obj;
                       dump_failure := None;
                       clock := clock (world st) |} |}.
Proof.
  unfold joblib_dump.
  destruct (dump_failure (world st)); intros H; inversion H; subst.
  split; reflexivity.
Qed.


(** ** A training run that returned *)

Lemma train_model_inr (st : State) b st' :
  train_model st = (inr b, st') ->
  b = true /\
  exists df X_train X_test y_train y_test fitted X_train_scaled clf
         acc cm rep au fp tp,
    fst (load_and_preprocess_data st) = inr df /\
    train_test_split (drop_Outcome df) (Outcome df)
      = inr (X_train, X_test, y_train, y_test) /\
    scaler_fit_transform (scaler (self st)) X_train
      = inr (fitted, X_train_scaled) /\
    svc_fit (model (self st)) X_train_scaled y_train = inr clf /\
    dump_failure (world st) = None /\
    st' = {| self := {| model := clf; scaler := fitted; is_trained := true;
                        accuracy := Some acc; conf_matrix := Some cm;
                        class_report := Some rep; roc_auc := Some au;
                        fpr := Some fp; tpr := Some tp |};
             world := {| diabetes_csv := diabetes_csv (world st);
                         diabetes_model_pkl := inr (clf, fitted);
                         dump_failure := None;
                         clock := clock (world st) |} |}.
Proof.
  unfold train_model. intros H.
  apply bind_inr in H. destruct H as (df & st0 & Hload & H).
  rewrite load_and_preprocess_data_eq in Hload.
  inversion Hload; subst st0. clear Hload.
  do 24 (ok_step H).
  apply bind_inr in H. destruct H as (u & st1 & Hd & H).
  apply joblib_dump_inr in Hd. cbn [self world model scaler] in Hd.
  destruct Hd as [Hdf ->].
  prim H.
  split; [reflexivity|].
  repeat eexists; try eassumption.
  rewrite load_and_preprocess_data_eq. cbn [fst]. reflexivity.
Qed.

(** ** Inference on a prepared object *)

Lemma predict_infer_returns (st : State) x label p :
  classifies (model (self st)) (scaler (self st)) x label p ->
  predict_infer x st = (inr (graded label p), st).
Proof.
  intros (scaled & labels & proba & row & Ht & Hl & Hl0 & Hp & Hp0 & Hp1).
  unfold predict_infer, Py.bind, Py.get, Py.call, Py.ret, getitem.
  rewrite Ht, Hl, Hl0, Hp, Hp0, Hp1.
  unfold graded. destruct (risk_assessment p). reflexivity.
Qed.

Lemma predict_infer_inr (st : State) x r st' :
  predict_infer x st = (inr r, st') ->
  st' = st /\
  exists label p,
    classifies (model (self st)) (scaler (self st)) x label p /\
    r = graded label p.
Proof.
  unfold predict_infer. intros H.
  do 7 (ok_step H).
  unfold getitem in *.
  repeat match goal with
         | E : match nth_error ?a ?i with Some _ => _ | None => _ end = inr _ |- _ =>
             destruct (nth_error a i) eqn:?;
             [inversion E; subst; clear E | discriminate E]
         end.
  match type of H with
  | context [risk_assessment ?q] => destruct (risk_assessment q) eqn:Hr
  end.
  prim H.
  split; [reflexivity|].
  eexists _, _. split.
  - unfold classifies. repeat eexists; eassumption.
  - unfold graded. rewrite Hr. reflexivity.
Qed.

Lemma predict_infer_state (st : State) x :
  snd (predict_infer x st) = st.
Proof.
  unfold predict_infer, Py.bind, Py.get, Py.call, Py.ret.
  repeat match goal with
         | |- context [match ?c with inl _ => _ | inr _ => _ end] =>
             destruct c; cbn [snd]; try reflexivity
         end.
  destruct (risk_assessment _). reflexivity.
Qed.

End PipelineFacts.

Section Lifecycle.

Context {L : Libraries}.

(** ** Lines 103-111 of [predict], case by case *)

Lemma predict_ensure_trained_trained (st : State) :
  is_trained (self st) = true -> predict_ensure_trained st = (inr tt, st).
Proof.
  intros H. unfold predict_ensure_trained, Py.bind, Py.get.
  rewrite H. reflexivity.
Qed.

Lemma predict_ensure_trained_loads (st : State) m s :
  is_trained (self st) = false ->
  diabetes_model_pkl (world st) = inr (m, s) ->
  predict_ensure_trained st = (inr tt, loaded m s st).
Proof.
  intros H Hp.
  cbv [predict_ensure_trained Py.bind Py.get Py.try_except joblib_load
       Py.call set_model set_scaler set_is_trained with_self Py.modify].
  rewrite H. cbn [negb]. rewrite Hp. reflexivity.
Qed.

Lemma predict_ensure_trained_trains (st : State) e :
  is_trained (self st) = false ->
  diabetes_model_pkl (world st) = inl e ->
  predict_ensure_trained st =
    match train_model st with
    | (inr _, st1) => (inr tt, st1)
    | (inl e', st1) => (inl e', st1)
    end.
Proof.
  intros H Hp.
  cbv [predict_ensure_trained Py.bind Py.get Py.try_except joblib_load
       Py.call Py.ret].
  rewrite H. cbn [negb]. rewrite Hp.
  destruct (train_model st) as [[e'|b] st1]; reflexivity.
Qed.

(** ** The flag is only ever set *)

Definition trained (st : State) : Prop := is_trained (self st) = true.






Lemma get_performance_plots_state (st : State) :
  snd (get_performance_plots st) = st.
Proof.
  unfold get_performance_plots, Py.bind, Py.get, Py.call, Py.ret.
  destruct (negb (is_trained (self st))); [reflexivity|].
  repeat match goal with
         | |- context [match ?c with inl _ => _ | inr _ => _ end] =>
             destruct c; cbn [snd]; try reflexivity
         end.
Qed.

Lemma get_model_metrics_state (st : State) :
  snd (get_model_metrics st) = st.
Proof.
  unfold get_model_metrics, Py.bind, Py.get, Py.call, Py.ret.
  destruct (negb (is_trained (self st))); [reflexivity|].
  repeat match goal with
         | |- context [match ?c with inl _ => _ | inr _ => _ end] =>
             destruct c; cbn [snd]; try reflexivity
         end.
Qed.


Lemma train_model_sets_trained (st : State) b st' :
  train_model st = (inr b, st') -> is_trained (self st') = true.
Proof.
  intros H. apply train_model_inr in H.
  destruct H as (_ & df & ? & ? & ? & ? & ? & ? & ? & ? & ? & ? & ? & ? & ? & H).
  destruct H as (_ & _ & _ & _ & _ & ->). reflexivity.
Qed.



End Lifecycle.

Section Claims.

Context {L : Libraries}.

(** C5.  When reading the external dataset raises, whatever the
    exception, [load_and_preprocess_data] returns the synthesized table
    and raises nothing; the object and its surroundings are unchanged. *)
Theorem load_falls_back_to_synthesis (st : State) (e : exn) :
  diabetes_csv (world st) = inl e ->
  load_and_preprocess_data st = (inr (with_Outcome synthetic_data), st).
Proof.
  intros H. rewrite load_and_preprocess_data_eq, H. reflexivity.
Qed.


(** Inference reads only the classifier and the scaler of the object. *)
Lemma predict_infer_ext (a b : State) x :
  model (self a) = model (self b) ->
  scaler (self a) = scaler (self b) ->
  fst (predict_infer x a) = fst (predict_infer x b).
Proof.
  intros Hm Hs.
  unfold predict_infer, Py.bind, Py.get, Py.call, Py.ret.
  rewrite Hm, Hs.
  repeat match goal with
         | |- context [match ?c with inl _ => _ | inr _ => _ end] =>
             destruct c; cbn [fst]; try reflexivity
         end.
  destruct (risk_assessment _). reflexivity.
Qed.

Lemma predict_trained (st : State) x :
  is_trained (self st) = true -> predict x st = predict_infer x st.
Proof.
  intros H. unfold predict.
  exact (bind_eq _ (fun _ => predict_infer x) _
                 (predict_ensure_trained_trained st H)).
Qed.

Lemma predict_loads (st : State) x m s :
  is_trained (self st) = false ->
  diabetes_model_pkl (world st) = inr (m, s) ->
  predict x st = predict_infer x (loaded m s st).
Proof.
  intros H Hp. unfold predict.
  exact (bind_eq _ (fun _ => predict_infer x) _
                 (predict_ensure_trained_loads st H Hp)).
Qed.

Lemma predict_trains (st : State) x e b st1 :
  is_trained (self st) = false ->
  diabetes_model_pkl (world st) = inl e ->
  train_model st = (inr b, st1) ->
  predict x st = predict_infer x st1.
Proof.
  intros H Hp Ht. unfold predict.
  refine (bind_eq _ (fun _ => predict_infer x) _ _).
  rewrite (predict_ensure_trained_trains st H Hp), Ht. reflexivity.
Qed.

(** C8.  After a training run that returned, an object that has not yet
    trained or loaded anything (in particular a new one) and that finds
    the saved artifact answers every vector exactly as the object that
    saved it: the same result dictionary, or the same exception. *)
Theorem artifact_round_trip (st : State) b st' (o : DiabetesSVMModel) x :
  train_model st = (inr b, st') ->
  is_trained o = false ->
  fst (predict x {| self := o; world := world st' |}) = fst (predict x st').
Proof.
  intros Ht Ho.
  pose proof (train_model_sets_trained _ Ht) as Htr.
  rewrite (predict_trained st' x Htr).
  apply train_model_inr in Ht.
  destruct Ht as (_ & df & ? & ? & ? & ? & fitted & ? & clf & ? & ? & ? & ? & ? & ? & H).
  destruct H as (_ & _ & _ & _ & _ & ->).
  rewrite (@predict_loads _ x clf fitted); [| exact Ho | reflexivity].
  apply predict_infer_ext; reflexivity.
Qed.

(** The tier and recommendation of a returned result are those of its
    probability. *)
Lemma predict_grades_probability (st : State) x r st' :
  predict x st = (inr r, st') ->
  (risk_level r, recommendation r) = risk_assessment (probability r).
Proof.
  intros H. unfold predict in H. apply bind_inr in H.
  destruct H as (u & st1 & _ & H).
  apply predict_infer_inr in H. destruct H as (_ & label & q & _ & ->).
  cbn [risk_level recommendation probability graded].
  destruct (risk_assessment q); reflexivity.
Qed.


(** C9.  For every float, and so for every probability in [0,1],
    [get_risk_color] is green exactly when lines 121-130 of [predict]
    choose Low, yellow exactly when they choose Medium and red exactly
    when they choose High; the same holds of the colour of the
    probability of every result [predict] returns against its tier. *)
Theorem risk_color_agrees_with_tier :
  (forall p : float,
      (get_risk_color p = "#28a745" <-> fst (risk_assessment p) = "Low") /\
      (get_risk_color p = "#ffc107" <-> fst (risk_assessment p) = "Medium") /\
      (get_risk_color p = "#dc3545" <-> fst (risk_assessment p) = "High")) /\
  (forall (st : State) x r st',
      predict x st = (inr r, st') ->
      (get_risk_color (probability r) = "#28a745" <-> risk_level r = "Low") /\
      (get_risk_color (probability r) = "#ffc107" <-> risk_level r = "Medium") /\
      (get_risk_color (probability r) = "#dc3545" <-> risk_level r = "High")).
Proof.
  assert (G : forall p : float,
      (get_risk_color p = "#28a745" <-> fst (risk_assessment p) = "Low") /\
      (get_risk_color p = "#ffc107" <-> fst (risk_assessment p) = "Medium") /\
      (get_risk_color p = "#dc3545" <-> fst (risk_assessment p) = "High")).
  { intros p. unfold get_risk_color, risk_assessment.
    destruct (p <? f0_3)%py; [| destruct (p <? f0_7)%py];
      cbn [fst]; repeat split; intros E; try reflexivity; discriminate E. }
  split; [exact G|].
  intros st x r st' H.
  pose proof (predict_grades_probability _ _ H) as Hr.
  assert (E : risk_level r = fst (risk_assessment (probability r)))
    by (rewrite <- Hr; reflexivity).
  rewrite E. apply G.
Qed.

(** C3.  Under scikit-learn's contract that [transform] on a scaler that
    was never fitted raises [NotFittedError], a [predict] call that
    reaches line 115 with such a scaler raises that error and returns no
    result; [predict] itself has no guard and catches nothing there. *)
Theorem predict_unfitted_scaler_raises
        (transform_checks_fitted :
           forall (s : Scaler) (X : Matrix),
             scaler_fitted s = false ->
             scaler_transform s X = inl NotFittedError)
        (st : State) x st1 :
  predict_ensure_trained st = (inr tt, st1) ->
  scaler_fitted (scaler (self st1)) = false ->
  predict x st = (inl NotFittedError, st1).
Proof.
  intros He Hs. unfold predict.
  rewrite (bind_eq _ (fun _ => predict_infer x) _ He).
  unfold predict_infer, Py.bind, Py.get, Py.call.
  rewrite (transform_checks_fitted _ _ Hs). reflexivity.
Qed.

End Claims.

(* ================================================================== *)
(** * What the result of [predict] can be, under the libraries' contracts *)

Lemma gt_astype_int_binary (s : list float) (m : float) :
  Forall binary_label (Series.gt_astype_int s m).
Proof.
  unfold Series.gt_astype_int. apply Forall_forall. intros l Hin.
  apply in_map_iff in Hin. destruct Hin as (x & <- & _).
  destruct (x >? m)%py; [right | left]; reflexivity.
Qed.

Lemma Forall_incl {A : Type} (P : A -> Prop) (l l' : list A) :
  incl l l' -> Forall P l' -> Forall P l.
Proof.
  intros Hi Hf. apply Forall_forall. intros a Ha.
  eapply Forall_forall; [exact Hf | apply Hi, Ha].
Qed.

Section Contracts.

Context {L : Libraries}.

(** scikit-learn's documented behaviour, as far as the pipeline relies
    on it: class probabilities lie in [0,1]; predicted labels are among
    the fitted [classes_]; [classes_] are labels seen by [fit]; the
    training part of a split is drawn from the table that was split. *)
Hypothesis proba_in_unit :
  forall (m : Classifier) (X P : Matrix),
    svc_predict_proba m X = inr P ->
    Forall (Forall (fun p => in_unit p = true)) P.
Hypothesis labels_in_classes :
  forall (m : Classifier) (X : Matrix) (ys : list Z),
    svc_predict m X = inr ys -> Forall (fun y => In y (svc_classes m)) ys.
Hypothesis classes_from_fit :
  forall (m m' : Classifier) (X : Matrix) (y : list Z),
    svc_fit m X y = inr m' -> incl (svc_classes m') y.
Hypothesis split_labels :
  forall (X X_train X_test : Matrix) (y y_train y_test : list Z),
    train_test_split X y = inr (X_train, X_test, y_train, y_test) ->
    incl y_train y.

Lemma classifies_valid (m : Classifier) (s : Scaler) x label p :
  binary_classifier m ->
  classifies m s x label p ->
  binary_label label /\ in_unit p = true.
Proof.
  intros Hb (scaled & labels & proba & row & _ & Hl & Hl0 & Hp & Hp0 & Hp1).
  split.
  - apply labels_in_classes in Hl.
    apply nth_error_In in Hl0.
    pose proof (proj1 (Forall_forall _ _) Hl _ Hl0) as Hin.
    exact (proj1 (Forall_forall _ _) Hb _ Hin).
  - apply proba_in_unit in Hp.
    apply nth_error_In in Hp0. apply nth_error_In in Hp1.
    pose proof (proj1 (Forall_forall _ _) Hp _ Hp0) as Hrow.
    exact (proj1 (Forall_forall _ _) Hrow _ Hp1).
Qed.

Lemma loaded_table_binary (st : State) df :
  binary_world (world st) ->
  fst (load_and_preprocess_data st) = inr df ->
  Forall binary_label (Outcome df).
Proof.
  intros [Hcsv _]. rewrite load_and_preprocess_data_eq. cbn [fst].
  destruct (diabetes_csv (world st)) as [e|df'] eqn:E; intros H;
    inversion H; subst.
  - apply gt_astype_int_binary.
  - apply Hcsv. reflexivity.
Qed.

Lemma train_model_binary (st : State) b st' :
  binary_world (world st) ->
  train_model st = (inr b, st') ->
  binary_classifier (model (self st')) /\ binary_world (world st').
Proof.
  intros Hw H. pose proof Hw as [Hcsv Hpkl].
  apply train_model_inr in H.
  destruct H as (_ & df & Xtr & Xte & ytr & yte & fitted & Xs & clf & H).
  destruct H as (? & ? & ? & ? & ? & ? & Hload & Hsplit & _ & Hfit & _ & ->).
  assert (Hclf : binary_classifier clf).
  { unfold binary_classifier.
    eapply Forall_incl; [eapply classes_from_fit; exact Hfit|].
    eapply Forall_incl; [eapply split_labels; exact Hsplit|].
    eapply loaded_table_binary; eassumption. }
  split; [exact Hclf|].
  split; cbn [world diabetes_csv diabetes_model_pkl].
  - exact Hcsv.
  - intros m s E. inversion E; subst. exact Hclf.
Qed.

(** Lines 103-111 leave a two-label classifier in memory when they
    return. *)
Lemma predict_ensure_trained_binary (st : State) u st1 :
  binary_world (world st) -> binary_self (self st) ->
  predict_ensure_trained st = (inr u, st1) ->
  binary_classifier (model (self st1)) /\
  binary_world (world st1) /\ is_trained (self st1) = true.
Proof.
  intros Hw Hs H. destruct (is_trained (self st)) eqn:Ht.
  - rewrite (predict_ensure_trained_trained st Ht) in H.
    inversion H; subst. repeat split; [apply Hs, Ht | apply Hw | apply Hw | exact Ht].
  - destruct (diabetes_model_pkl (world st)) as [e|[m s]] eqn:Hp.
    + rewrite (predict_ensure_trained_trains st Ht Hp) in H.
      destruct (train_model st) as [[e'|b] st2] eqn:Htr; inversion H; subst.
      edestruct train_model_binary as [Hm Hw']; [exact Hw | exact Htr |].
      split; [exact Hm|]. split; [exact Hw'|].
      eapply train_model_sets_trained; eassumption.
    + rewrite (predict_ensure_trained_loads st Ht Hp) in H.
      inversion H; subst. cbn [loaded self model world is_trained].
      split; [eapply (proj2 Hw); exact Hp|]. split; [exact Hw | reflexivity].
Qed.

(** C7.  Under the contracts above, in surroundings with binary-labelled
    files and with a two-label classifier in memory once the flag is set,
    every result [predict] returns has a probability with 0 <= p <= 1 and
    a label that is 0 or 1; the surroundings and the object are again of
    that kind afterwards. *)
Theorem predict_result_ranges (st : State) x r st' :
  binary_world (world st) ->
  binary_self (self st) ->
  predict x st = (inr r, st') ->
  (in_unit (probability r) = true /\ binary_label (prediction r)) /\
  binary_world (world st') /\ binary_self (self st').
Proof.
  intros Hw Hs H. unfold predict in H. apply bind_inr in H.
  destruct H as (u & st1 & He & H).
  edestruct predict_ensure_trained_binary as (Hm & Hw1 & Ht1);
    [exact Hw | exact Hs | exact He |].
  apply predict_infer_inr in H. destruct H as (-> & label & p & Hc & ->).
  edestruct classifies_valid as [Hl Hp]; [exact Hm | exact Hc |].
  cbn [graded probability prediction].
  split; [split; assumption|]. split; [exact Hw1|].
  intros _. exact Hm.
Qed.


End Contracts.

(* ================================================================== *)
(** * The synthesized table *)

Lemma nth_map_lt {A B : Type} (f : A -> B) (s : list A) (i : nat) (da : A) (db : B) :
  (i < List.length s)%nat -> nth i (map f s) db = f (nth i s da).
Proof.
  intros H. rewrite (nth_indep _ db (f da)) by (rewrite length_map; exact H).
  apply map_nth.
Qed.

Lemma Series_add_length (s t : list float) :
  List.length (Series.add s t) = Nat.min (List.length s) (List.length t).
Proof.
  revert t. induction s as [|x s IH]; intros [|y t]; cbn; try reflexivity.
  rewrite IH. reflexivity.
Qed.

Lemma Series_add_int_length (s : list float) (t : list Z) :
  List.length (Series.add_int s t) = Nat.min (List.length s) (List.length t).
Proof.
  revert t. induction s as [|x s IH]; intros [|y t]; cbn; try reflexivity.
  rewrite IH. reflexivity.
Qed.

Lemma Series_add_nth (s t : list float) (i : nat) (d : float) :
  (i < List.length s)%nat -> (i < List.length t)%nat ->
  nth i (Series.add s t) d = (nth i s d + nth i t d)%py.
Proof.
  revert t i. induction s as [|x s IH]; intros [|y t] [|i] Hs Ht;
    cbn in *; try lia; try reflexivity.
  apply IH; lia.
Qed.

Lemma Series_add_int_nth (s : list float) (t : list Z) (i : nat) (d : float) :
  (i < List.length s)%nat -> (i < List.length t)%nat ->
  nth i (Series.add_int s t) d = (nth i s d + PyFloat.of_int (nth i t 0))%py.
Proof.
  revert t i. induction s as [|x s IH]; intros [|y t] [|i] Hs Ht;
    cbn [Series.add_int nth List.length] in *; try lia; try reflexivity.
  apply IH; lia.
Qed.

(** The score of row [i], from the row's own entries. *)
Lemma risk_score_nth {L : Libraries} (X : FeatureFrame) (n i : nat) :
  List.length (Pregnancies X) = n -> List.length (Glucose X) = n ->
  List.length (BloodPressure X) = n -> List.length (BMI X) = n ->
  List.length (DiabetesPedigreeFunction X) = n -> List.length (Age X) = n ->
  (i < n)%nat ->
  List.length (risk_score X) = n /\
  nth i (risk_score X) PyFloat.nan =
    (((((nth i (Glucose X) PyFloat.nan * f0_1
         + nth i (BMI X) PyFloat.nan * f0_08)
        + PyFloat.of_int (nth i (Age X) 0) * f0_05)
       + nth i (DiabetesPedigreeFunction X) PyFloat.nan * f0_3)
      + PyFloat.of_int (if (nth i (Pregnancies X) 0 >? 5)%Z then 10 else 0))
     + PyFloat.of_int
         (if (nth i (BloodPressure X) PyFloat.nan >? PyFloat.of_int 80)%py
          then 5 else 0))%py.
Proof.
  intros Hp Hg Hb Hm Hd Ha Hi. unfold risk_score.
  split.
  - rewrite !Series_add_int_length, !Series_add_length.
    unfold Series.mul, Series.int_mul, Series.int_gt_times, Series.gt_times.
    rewrite !length_map. lia.
  - rewrite !Series_add_int_nth, !Series_add_nth;
      rewrite ?Series_add_int_length, ?Series_add_length;
      unfold Series.mul, Series.int_mul, Series.int_gt_times, Series.gt_times;
      rewrite ?length_map; try lia.
    rewrite (nth_map_lt _ (Glucose X) PyFloat.nan) by lia.
    rewrite (nth_map_lt _ (BMI X) PyFloat.nan) by lia.
    rewrite (nth_map_lt _ (Age X) 0) by lia.
    rewrite (nth_map_lt _ (DiabetesPedigreeFunction X) PyFloat.nan) by lia.
    rewrite (nth_map_lt _ (Pregnancies X) 0) by lia.
    rewrite (nth_map_lt _ (BloodPressure X) PyFloat.nan) by lia.
    reflexivity.
Qed.

Section Synthesis.

Context {L : Libraries}.

(** numpy's contract for [size=n]: each draw returns [n] values. *)
Hypothesis randint_length :
  forall lo hi n g, List.length (fst (randint lo hi n g)) = n.
Hypothesis normal_length :
  forall loc scale n g, List.length (fst (normal loc scale n g)) = n.
Hypothesis exponential_length :
  forall scale n g, List.length (fst (exponential scale n g)) = n.

Lemma clip_length (lo hi : float) (s : list float) :
  List.length (Series.clip lo hi s) = List.length s.
Proof. unfold Series.clip. apply length_map. Qed.

Lemma synthetic_data_lengths :
  List.length (Pregnancies synthetic_data) = n_samples /\
  List.length (Glucose synthetic_data) = n_samples /\
  List.length (BloodPressure synthetic_data) = n_samples /\
  List.length (SkinThickness synthetic_data) = n_samples /\
  List.length (Insulin synthetic_data) = n_samples /\
  List.length (BMI synthetic_data) = n_samples /\
  List.length (DiabetesPedigreeFunction synthetic_data) = n_samples /\
  List.length (Age synthetic_data) = n_samples.
Proof.
  unfold synthetic_data.
  repeat match goal with
         | |- context [let (_, _) := ?d in _] =>
             let E := fresh "E" in
             destruct d as [? ?] eqn:E;
             first [ apply (f_equal fst) in E; cbn [fst] in E;
                     apply (f_equal (@List.length _)) in E;
                     first [ rewrite randint_length in E
                           | rewrite normal_length in E
                           | rewrite exponential_length in E ] ]
         end.
  cbn [Pregnancies Glucose BloodPressure SkinThickness Insulin BMI
       DiabetesPedigreeFunction Age].
  rewrite !clip_length. repeat split; congruence.
Qed.

(** C2.  When the dataset cannot be read, the table returned has 1000
    rows; the score of each row is the weighted sum of lines 47-54 over
    that row's entries (four weighted features and two threshold
    indicators), and the row's label is 1 exactly when its score is
    greater than the median of the 1000 scores, and 0 otherwise. *)
Theorem synthetic_labels_threshold_median (st : State) (e : exn) :
  diabetes_csv (world st) = inl e ->
  exists df,
    load_and_preprocess_data st = (inr df, st) /\
    let X := features df in
    let score := risk_score X in
    nrows X = 1000%nat /\
    List.length score = 1000%nat /\
    List.length (Outcome df) = 1000%nat /\
    forall i, (i < 1000)%nat ->
      nth i score PyFloat.nan =
        (((((nth i (Glucose X) PyFloat.nan * f0_1
             + nth i (BMI X) PyFloat.nan * f0_08)
            + PyFloat.of_int (nth i (Age X) 0) * f0_05)
           + nth i (DiabetesPedigreeFunction X) PyFloat.nan * f0_3)
          + PyFloat.of_int (if (nth i (Pregnancies X) 0 >? 5)%Z then 10 else 0))
         + PyFloat.of_int
             (if (nth i (BloodPressure X) PyFloat.nan >? PyFloat.of_int 80)%py
              then 5 else 0))%py /\
      nth i (Outcome df) 0 =
        (if (nth i score PyFloat.nan >? median score)%py then 1 else 0).
Proof.
  intros H. exists (with_Outcome synthetic_data).
  split; [rewrite load_and_preprocess_data_eq, H; reflexivity|].
  cbn [with_Outcome features Outcome]. cbv zeta.
  destruct synthetic_data_lengths as (Hp & Hg & Hb & _ & _ & Hm & Hd & Ha).
  assert (Hlen : List.length (risk_score synthetic_data) = n_samples).
  { destruct n_samples as [|k] eqn:En; [discriminate En|].
    rewrite <- En in *.
    refine (proj1 (@risk_score_nth _ synthetic_data n_samples 0
                     Hp Hg Hb Hm Hd Ha _)).
    rewrite En. lia. }
  split; [exact Hp|]. split; [exact Hlen|].
  split; [unfold Series.gt_astype_int; rewrite length_map; exact Hlen|].
  intros i Hi. split.
  - exact (proj2 (@risk_score_nth _ synthetic_data n_samples i
                    Hp Hg Hb Hm Hd Ha Hi)).
  - unfold Series.gt_astype_int.
    rewrite (nth_map_lt _ (risk_score synthetic_data) PyFloat.nan);
      [reflexivity | rewrite Hlen; exact Hi].
Qed.

End Synthesis.

(* ================================================================== *)
(** * Training in two parts *)

Lemma bind_assoc {S A B C : Type}
      (c : Py.M S A) (k : A -> Py.M S B) (h : B -> Py.M S C) st :
  Py.bind (Py.bind c k) h st = Py.bind c (fun a => Py.bind (k a) h) st.
Proof. unfold Py.bind. destruct (c st) as [[e|a] st1]; reflexivity. Qed.

Lemma bind_ext {S A B : Type} (c : Py.M S A) (k k' : A -> Py.M S B) st :
  (forall a st1, k a st1 = k' a st1) -> Py.bind c k st = Py.bind c k' st.
Proof. intros H. unfold Py.bind. destruct (c st) as [[e|a] st1]; [reflexivity | apply H]. Qed.


Lemma preserves_on_raise_bind {S A B : Type} (P : S -> Prop)
      (c : Py.M S A) (k : A -> Py.M S B) :
  preserves P c -> (forall a, preserves_on_raise P (k a)) ->
  preserves_on_raise P (Py.bind c k).
Proof.
  intros Hc Hk st HP e st' E. apply bind_run in E.
  destruct E as [(e' & E & _) | (a & st1 & E & E')].
  - specialize (Hc st HP). rewrite E in Hc. exact Hc.
  - specialize (Hc st HP). rewrite E in Hc. exact (Hk a st1 Hc e st' E').
Qed.

Lemma preserves_on_raise_get_bind {S B : Type} (P : S -> Prop) (k : S -> Py.M S B) :
  (forall st0, preserves_on_raise P (k st0)) ->
  preserves_on_raise P (Py.bind Py.get k).
Proof. intros Hk st HP e st' E. exact (Hk st st HP e st' E). Qed.

Lemma preserves_on_raise_modify {S : Type} (P : S -> Prop) (f : S -> S) :
  preserves_on_raise P (Py.modify f).
Proof. intros st _ e st' E. discriminate E. Qed.

Ltac keeping :=
  repeat lazymatch goal with
    | |- preserves _ (Py.ret _) => apply preserves_ret
    | |- preserves _ (Py.call _) => apply preserves_call
    | |- preserves _ (Py.bind Py.get _) => apply preserves_get_bind; intros ?
    | |- preserves _ (Py.bind _ _) => apply preserves_bind; [| intros ?]
    | |- preserves _ (Py.try_except _ _) => apply preserves_try_except
    | |- preserves _ (Py.modify _) =>
        apply preserves_modify; intros ? ?; first [assumption | reflexivity]
    | |- preserves _ (let (_, _) := ?p in _) => destruct p
    end.

Ltac keeping_on_raise :=
  repeat lazymatch goal with
    | |- preserves_on_raise _ (Py.modify _) => apply preserves_on_raise_modify
    | |- preserves_on_raise _ (Py.bind Py.get _) =>
        apply preserves_on_raise_get_bind; intros ?
    | |- preserves_on_raise _ (Py.bind _ _) =>
        apply preserves_on_raise_bind; [keeping | intros ?]
    | |- preserves_on_raise _ (let (_, _) := ?p in _) => destruct p
    end.

Ltac unfold_setters :=
  unfold set_model, set_scaler, set_is_trained, set_accuracy,
    set_conf_matrix, set_class_report, set_roc_auc, set_fpr, set_tpr, with_self.

Section TrainingFacts.

Context {L : Libraries}.

Lemma train_model_split (st : State) :
  train_model st = Py.bind fit_and_evaluate (fun _ => save_artifact) st.
Proof.
  unfold train_model, fit_and_evaluate. cbv zeta.
  repeat (rewrite bind_assoc; apply bind_ext; intros ? ?;
          repeat match goal with
                 | |- context [let (_, _) := ?p in _] => is_var p; destruct p
                 end).
  reflexivity.
Qed.

Lemma fit_and_evaluate_keeps_world (w : World) :
  preserves (fun st => world st = w) fit_and_evaluate.
Proof.
  unfold fit_and_evaluate. unfold_setters.
  apply preserves_bind; [| intros ?].
  - intros st H. rewrite load_and_preprocess_data_eq. exact H.
  - cbv zeta. keeping.
Qed.

(** Lines 62-95 write nothing outside the object. *)
Lemma fit_and_evaluate_world (st : State) :
  world (snd (fit_and_evaluate st)) = world st.
Proof. exact (@fit_and_evaluate_keeps_world (world st) st eq_refl). Qed.

Lemma fit_and_evaluate_keeps_flag (b : bool) :
  preserves_on_raise (fun st => is_trained (self st) = b) fit_and_evaluate.
Proof.
  unfold fit_and_evaluate. unfold_setters.
  apply preserves_on_raise_bind; [| intros ?].
  - intros st H. rewrite load_and_preprocess_data_eq. exact H.
  - cbv zeta. keeping_on_raise.
Qed.

(** Until line 95 the flag is as it was. *)
Lemma fit_and_evaluate_flag (st : State) e st' :
  fit_and_evaluate st = (inl e, st') ->
  is_trained (self st') = is_trained (self st).
Proof.
  exact (@fit_and_evaluate_keeps_flag (is_trained (self st)) st eq_refl e st').
Qed.

Lemma save_artifact_run (st : State) :
  save_artifact st =
    match dump_failure (world st) with
    | Some e => (inl e, st)
    | None =>
        (inr true,
         {| self := self st;
            world := {| diabetes_csv := diabetes_csv (world st);
                        diabetes_model_pkl := inr (model (self st), scaler (self st));
                        dump_failure := None;
                        clock := clock (world st) |} |})
    end.
Proof.
  unfold save_artifact, Py.bind, Py.get, Py.ret, joblib_dump.
  destruct (dump_failure (world st)); reflexivity.
Qed.

Lemma fit_and_evaluate_inr (st : State) u st1 :
  fit_and_evaluate st = (inr u, st1) ->
  world st1 = world st /\ is_trained (self st1) = true /\
  exists a cm c r fp tp,
    accuracy (self st1) = Some a /\ conf_matrix (self st1) = Some cm /\
    class_report (self st1) = Some c /\ roc_auc (self st1) = Some r /\
    fpr (self st1) = Some fp /\ tpr (self st1) = Some tp.
Proof.
  intros H. split.
  - pose proof (fit_and_evaluate_world st) as E.
    rewrite H in E. exact E.
  - unfold fit_and_evaluate in H.
    apply bind_inr in H. destruct H as (df & st0 & Hload & H).
    rewrite load_and_preprocess_data_eq in Hload.
    inversion Hload; subst st0. clear Hload.
    do 21 (ok_step H).
    prim H. cbn. split; [reflexivity|].
    repeat eexists.
Qed.

(** A training run that raises writes no file. *)
Lemma train_model_raise_world (st : State) e st' :
  train_model st = (inl e, st') -> world st' = world st.
Proof.
  intros H. rewrite train_model_split in H. apply bind_run in H.
  destruct H as [(e' & H & _) | ([] & st1 & H & Hs)].
  - pose proof (fit_and_evaluate_world st) as W. rewrite H in W. exact W.
  - pose proof (fit_and_evaluate_inr _ H) as (W & _).
    rewrite save_artifact_run in Hs.
    destruct (dump_failure (world st1)); inversion Hs; subst. exact W.
Qed.

End TrainingFacts.

(* ================================================================== *)
(** * What training reads *)

Section AgreementRules.

Context {L : Libraries}.

Lemma agree_ret {A : Type} (x : A) : agree (Py.ret x) (Py.ret x).
Proof. intros a b H. split; [reflexivity | exact H]. Qed.

Lemma agree_call {A : Type} (r : Result A) : agree (Py.call r) (Py.call r).
Proof. intros a b H. split; [reflexivity | exact H]. Qed.

Lemma agree_with_self (f : DiabetesSVMModel -> DiabetesSVMModel) :
  agree (with_self f) (with_self f).
Proof.
  intros a b [Hs Hc]. split; [reflexivity|].
  split; cbn; [rewrite Hs; reflexivity | exact Hc].
Qed.

Lemma agree_bind {A B : Type} (c1 c2 : M A) (k1 k2 : A -> M B) :
  agree c1 c2 -> (forall x, agree (k1 x) (k2 x)) ->
  agree (Py.bind c1 k1) (Py.bind c2 k2).
Proof.
  intros Hc Hk a b H. unfold Py.bind.
  destruct (Hc a b H) as [Hr Hs].
  destruct (c1 a) as [[e|x] a1], (c2 b) as [[e'|x'] b1]; cbn [fst snd] in *;
    try discriminate Hr.
  - split; [congruence | exact Hs].
  - inversion Hr; subst x'. exact (Hk x a1 b1 Hs).
Qed.

Lemma agree_get_bind {B : Type} (k1 k2 : State -> M B) :
  (forall a b, same_inputs a b -> agree (k1 a) (k2 b)) ->
  agree (Py.bind Py.get k1) (Py.bind Py.get k2).
Proof. intros Hk a b H. exact (Hk a b H a b H). Qed.

Lemma agree_load : agree load_and_preprocess_data load_and_preprocess_data.
Proof.
  intros a b H. rewrite !load_and_preprocess_data_eq. cbn [fst snd].
  split; [| exact H]. destruct H as [_ Hc]. rewrite Hc. reflexivity.
Qed.

End AgreementRules.

Ltac agreeing :=
  repeat lazymatch goal with
    | |- agree (Py.ret _) _ => apply agree_ret
    | |- agree (Py.call _) _ => apply agree_call
    | |- agree (with_self _) _ => apply agree_with_self
    | |- agree (Py.bind Py.get _) _ =>
        let a := fresh "a" in
        let b := fresh "b" in
        let H := fresh "H" in
        apply agree_get_bind; intros a b [H _]; try rewrite H; clear H
    | |- agree (Py.bind _ _) _ => apply agree_bind; [| intros ?]
    | |- agree (let (_, _) := ?p in _) _ => destruct p
    end.

Section AgreementFacts.

Context {L : Libraries}.

Lemma fit_and_evaluate_agree : agree fit_and_evaluate fit_and_evaluate.
Proof.
  unfold fit_and_evaluate.
  unfold set_model, set_scaler, set_is_trained, set_accuracy,
    set_conf_matrix, set_class_report, set_roc_auc, set_fpr, set_tpr.
  apply agree_bind; [apply agree_load | intros df]. cbv zeta.
  agreeing.
Qed.

End AgreementFacts.

(* ================================================================== *)
(** * Training: what it leaves behind *)

Section TrainingTheorems.

Context {L : Libraries}.

(** X1.  After a training run that returned, the artifact on disk is
    exactly the classifier and the scaler the object now holds; the
    dataset file and the clock are as before, and the save did not fail. *)
Theorem train_model_saves_memory_pair (st : State) b st' :
  train_model st = (inr b, st') ->
  diabetes_model_pkl (world st') = inr (model (self st'), scaler (self st')) /\
  diabetes_csv (world st') = diabetes_csv (world st) /\
  clock (world st') = clock (world st) /\
  dump_failure (world st) = None.
Proof.
  intros H. apply train_model_inr in H.
  destruct H as (_ & df & ? & ? & ? & ? & fitted & ? & clf & ? & ? & ? & ? & ? & ? & H).
  destruct H as (_ & _ & _ & _ & Hd & ->).
  cbn. repeat split. exact Hd.
Qed.



(** X4.  Training reads the object and the dataset file and nothing
    else: two runs that start from the same object beside the same
    dataset, and whose saves fail or succeed alike, return or raise the
    same and leave the same object, whatever artifact is already on disk
    and whatever the clock shows. *)
Theorem train_model_ignores_artifact_and_clock (a b : State) :
  self a = self b ->
  diabetes_csv (world a) = diabetes_csv (world b) ->
  dump_failure (world a) = dump_failure (world b) ->
  fst (train_model a) = fst (train_model b) /\
  self (snd (train_model a)) = self (snd (train_model b)).
Proof.
  intros Hs Hc Hd. rewrite !train_model_split. unfold Py.bind.
  destruct (fit_and_evaluate_agree (conj Hs Hc)) as [Hr [Hs1 _]].
  pose proof (fit_and_evaluate_world a) as Wa.
  pose proof (fit_and_evaluate_world b) as Wb.
  destruct (fit_and_evaluate a) as [[ea|[]] a1],
           (fit_and_evaluate b) as [[eb|[]] b1];
    cbn [fst snd] in *; try discriminate Hr.
  - split; [congruence | exact Hs1].
  - rewrite !save_artifact_run, Wa, Wb, <- Hd, Hs1.
    destruct (dump_failure (world a)); cbn [fst snd self];
      (split; [reflexivity | first [reflexivity | exact Hs1]]).
Qed.

(** X5.  Importing [svm_model] never raises: a failed training run is
    only printed.  The global object is the one the training run left;
    its flag is set exactly when lines 62-95 ran to the end, whether or
    not the artifact could then be saved. *)
Theorem import_svm_model_never_raises (st : State) :
  let st0 := {| self := __init__; world := world st |} in
  exists p,
    import_svm_model st = (inr p, snd (train_model st0)) /\
    (p = trained_successfully <-> exists b, fst (train_model st0) = inr b) /\
    (forall e, p = training_failed e <-> fst (train_model st0) = inl e) /\
    (is_trained (self (snd (train_model st0))) = true <->
     exists st1, fit_and_evaluate st0 = (inr tt, st1)).
Proof.
  intros st0.
  assert (Hrun : import_svm_model st
                 = match train_model st0 with
                   | (inr _, st') => (inr trained_successfully, st')
                   | (inl e, st') => (inr (training_failed e), st')
                   end).
  { unfold import_svm_model, try_except_as, Py.bind, Py.modify, Py.ret.
    fold st0. destruct (train_model st0) as [[e|b] st']; reflexivity. }
  assert (Hflag : is_trained (self (snd (train_model st0))) = true <->
                  exists st1, fit_and_evaluate st0 = (inr tt, st1)).
  { rewrite train_model_split. unfold Py.bind.
    destruct (fit_and_evaluate st0) as [[e|[]] st1] eqn:Hf; cbn [snd].
    - pose proof (fit_and_evaluate_flag _ Hf) as F.
      cbn in F. rewrite F. split; [discriminate | intros [? ?]; discriminate].
    - pose proof (fit_and_evaluate_inr _ Hf) as (_ & T & _).
      rewrite save_artifact_run.
      destruct (dump_failure (world st1)); cbn [snd self];
        (split; [intros _; exists st1; reflexivity | intros _; exact T]). }
  rewrite Hrun.
  destruct (train_model st0) as [[e|b] st'] eqn:Ht; cbn [fst snd] in *.
  - exists (training_failed e). split; [reflexivity|]. split.
    + split; [discriminate | intros [b H]; discriminate H].
    + split; [| exact Hflag].
      intros e0. split; intros H; inversion H; reflexivity.
  - exists trained_successfully. split; [reflexivity|]. split.
    + split; [intros _; exists b; reflexivity | reflexivity].
    + split; [| exact Hflag].
      intros e0. split; intros H; discriminate H.
Qed.

End TrainingTheorems.

(* ================================================================== *)
(** * More on float comparison *)

(** Only NaN is incomparable. *)
Lemma SFcompare_None (a b : float) :
  SFcompare a b = None -> a = PyFloat.nan \/ b = PyFloat.nan.
Proof.
  destruct a as [sa|sa| |sa ma ea], b as [sb|sb| |sb mb eb]; cbn;
    intros H; try discriminate H; auto.
Qed.

Lemma SFcompare_refl (a : float) :
  a <> PyFloat.nan -> SFcompare a a = Some Eq.
Proof.
  destruct a as [s|s| |s m e]; intros H.
  - reflexivity.
  - destruct s; reflexivity.
  - contradiction H. reflexivity.
  - unfold SFcompare. rewrite Z.compare_refl.
    assert (E : Pos.compare_cont Eq m m = Eq) by apply Pos.compare_refl.
    rewrite E. destruct s; reflexivity.
Qed.

Lemma leb_refl (a : float) : a <> PyFloat.nan -> (a <=? a)%py = true.
Proof.
  intros H. unfold PyFloat.leb, SFleb. rewrite (SFcompare_refl H). reflexivity.
Qed.

Lemma leb_not_nan (a b : float) :
  (a <=? b)%py = true -> a <> PyFloat.nan /\ b <> PyFloat.nan.
Proof.
  unfold PyFloat.leb, SFleb. intros H.
  split; intros ->; [| destruct a]; discriminate H.
Qed.

(** Among numbers, [not (x < a)] is [a <= x]. *)
Lemma not_ltb_leb (a x : float) :
  a <> PyFloat.nan -> x <> PyFloat.nan ->
  (x <? a)%py = false -> (a <=? x)%py = true.
Proof.
  intros Ha Hx. unfold PyFloat.ltb, PyFloat.leb, SFltb, SFleb.
  rewrite (SFcompare_antisym x a).
  destruct (SFcompare x a) as [[]|] eqn:E; cbn; try congruence.
  apply SFcompare_None in E. destruct E; contradiction.
Qed.

Lemma f0_0_bits : f0_0 = S754_zero false.
Proof. vm_compute. reflexivity. Qed.

Lemma f1_0_bits : f1_0 = S754_finite false 4503599627370496 (-52).
Proof. vm_compute. reflexivity. Qed.

(** [p < 0.3] gives [p < 0.7]. *)
Lemma lt_0_3_lt_0_7 (p : float) :
  (p <? f0_3)%py = true -> (p <? f0_7)%py = true.
Proof.
  rewrite f0_3_bits, f0_7_bits.
  unfold PyFloat.ltb, SFltb.
  generalize 5404319552844595%positive 6305039478318694%positive.
  intros m3 m7.
  destruct p as [s|s| |s m e]; unfold SFcompare; try congruence.
  destruct s; try congruence.
  destruct (Z.compare_spec e (-54)); destruct (Z.compare_spec e (-53));
    try lia; congruence.
Qed.

(** [p < 0] gives [p < 0.3]. *)
Lemma lt_0_lt_0_3 (p : float) :
  (p <? f0_0)%py = true -> (p <? f0_3)%py = true.
Proof.
  rewrite f0_0_bits, f0_3_bits.
  unfold PyFloat.ltb, SFltb.
  generalize 5404319552844595%positive. intros m3.
  destruct p as [s|s| |s m e]; unfold SFcompare; try congruence;
    destruct s; congruence.
Qed.

(** [1 < p] excludes [p < 0.7]. *)
Lemma gt_1_not_lt_0_7 (p : float) :
  (f1_0 <? p)%py = true -> (p <? f0_7)%py = false.
Proof.
  rewrite f1_0_bits, f0_7_bits.
  unfold PyFloat.ltb, SFltb.
  generalize 4503599627370496%positive 6305039478318694%positive.
  intros m1 m7.
  destruct p as [s|s| |s m e]; unfold SFcompare; try congruence.
  - destruct s; congruence.
  - destruct s; try congruence.
    destruct (Z.compare_spec (-52) e); destruct (Z.compare_spec e (-53));
      try lia; congruence.
Qed.

(** NaN is greater than nothing, and nothing is greater than NaN. *)
Lemma nan_gtb (m : float) : (PyFloat.nan >? m)%py = false.
Proof. destruct m; reflexivity. Qed.

Lemma gtb_nan (x : float) : (x >? PyFloat.nan)%py = false.
Proof. destruct x; reflexivity. Qed.

(** numpy's [clip] on one number. *)
Lemma clip_bounds (lo hi x : float) :
  (lo <=? hi)%py = true ->
  let y := if (x <? lo)%py then lo else if (x >? hi)%py then hi else x in
  (x = PyFloat.nan /\ y = PyFloat.nan) \/
  ((lo <=? y)%py = true /\ (y <=? hi)%py = true).
Proof.
  intros H. destruct (leb_not_nan _ _ H) as [Hlo Hhi]. cbv zeta.
  destruct (x <? lo)%py eqn:E1.
  - right. split; [apply leb_refl; exact Hlo | exact H].
  - destruct (x >? hi)%py eqn:E2.
    + right. split; [exact H | apply leb_refl; exact Hhi].
    + destruct x as [s|s| |s m e] eqn:Ex;
        try (right; split;
             [apply not_ltb_leb; [exact Hlo | discriminate | exact E1]
             | apply not_ltb_leb; [discriminate | exact Hhi | exact E2]]).
      left. split; reflexivity.
Qed.


Lemma Series_clip_within (lo hi : float) (s : list float) :
  (lo <=? hi)%py = true -> Forall (within lo hi) (Series.clip lo hi s).
Proof.
  intros H. unfold Series.clip. apply Forall_forall. intros y Hin.
  apply in_map_iff in Hin. destruct Hin as (x & <- & _).
  destruct (@clip_bounds lo hi x H) as [[_ E] | E]; [left | right]; exact E.
Qed.

(* ================================================================== *)
(** * More on the table *)

Section TableTheorems.

Context {L : Libraries}.


(** X7.  In the synthesized table every value of the six clipped
    columns lies between the bounds given to [clip] (or is NaN, which
    [clip] passes through): glucose in [0, 200], blood pressure in
    [0, 122], skin thickness in [0, 99], insulin in [0, 846], BMI in
    [0, 67] and the pedigree function in [0, 2.5], whatever the
    generator draws. *)
Theorem synthetic_columns_within_clip_bounds :
  Forall (within (PyFloat.of_int 0) (PyFloat.of_int 200)) (Glucose synthetic_data) /\
  Forall (within (PyFloat.of_int 0) (PyFloat.of_int 122)) (BloodPressure synthetic_data) /\
  Forall (within (PyFloat.of_int 0) (PyFloat.of_int 99)) (SkinThickness synthetic_data) /\
  Forall (within (PyFloat.of_int 0) (PyFloat.of_int 846)) (Insulin synthetic_data) /\
  Forall (within (PyFloat.of_int 0) (PyFloat.of_int 67)) (BMI synthetic_data) /\
  Forall (within (PyFloat.of_int 0) f2_5) (DiabetesPedigreeFunction synthetic_data).
Proof.
  unfold synthetic_data.
  repeat match goal with
         | |- context [let (_, _) := ?d in _] => destruct d as [? ?]
         end.
  cbn [Glucose BloodPressure SkinThickness Insulin BMI DiabetesPedigreeFunction].
  repeat split; apply Series_clip_within; vm_compute; reflexivity.
Qed.

(** X8.  The labels line 56 gives to any frame are 0 or 1, one per
    score; a row whose score is NaN is labelled 0, and when the median
    itself is NaN every row is labelled 0. *)
Theorem with_Outcome_labels (X : FeatureFrame) :
  let score := risk_score X in
  let y := Outcome (with_Outcome X) in
  Forall binary_label y /\
  List.length y = List.length score /\
  (forall i, (i < List.length score)%nat ->
             nth i score PyFloat.nan = PyFloat.nan -> nth i y 0 = 0) /\
  (median score = PyFloat.nan -> Forall (fun l => l = 0) y).
Proof.
  cbv zeta. cbn [with_Outcome Outcome]. split; [apply gt_astype_int_binary|].
  unfold Series.gt_astype_int. split; [apply length_map|]. split.
  - intros i Hi E.
    rewrite (nth_map_lt _ (risk_score X) PyFloat.nan) by exact Hi.
    rewrite E, nan_gtb. reflexivity.
  - intros E. rewrite E. apply Forall_forall. intros l Hin.
    apply in_map_iff in Hin. destruct Hin as (x & <- & _).
    rewrite gtb_nan. reflexivity.
Qed.

End TableTheorems.

(* ================================================================== *)
(** * More on [predict] *)

Section PredictTheorems.

Context {L : Libraries}.

Lemma predict_state (st : State) x :
  snd (predict x st) = snd (predict_ensure_trained st).
Proof.
  unfold predict, Py.bind.
  destruct (predict_ensure_trained st) as [[e|u] st1]; cbn [snd];
    [reflexivity | apply predict_infer_state].
Qed.

Lemma predict_infer_run (st : State) x :
  predict_infer x st = (fst (predict_infer x st), st).
Proof.
  pose proof (predict_infer_state st x) as H.
  destruct (predict_infer x st) as [r st1]. cbn [fst snd] in *.
  rewrite H. reflexivity.
Qed.

(** X9.  A [predict] call that does not train writes no file and
    computes no metric: on an object whose flag is set it changes
    nothing at all, and on one that finds a loadable artifact it only
    binds the loaded pair and sets the flag, whether the call then
    returns or raises. *)
Theorem predict_without_training (st : State) x :
  (is_trained (self st) = true -> snd (predict x st) = st) /\
  (forall m s,
      is_trained (self st) = false ->
      diabetes_model_pkl (world st) = inr (m, s) ->
      snd (predict x st) = loaded m s st /\
      world (snd (predict x st)) = world st /\
      accuracy (self (snd (predict x st))) = accuracy (self st) /\
      conf_matrix (self (snd (predict x st))) = conf_matrix (self st)).
Proof.
  split.
  - intros H. rewrite predict_state, (predict_ensure_trained_trained st H).
    reflexivity.
  - intros m s H Hp.
    rewrite predict_state, (predict_ensure_trained_loads st H Hp).
    cbn. repeat split.
Qed.

(** X10.  An artifact that loads but cannot answer is never replaced:
    when the loaded pair raises on a vector, [predict] raises that
    exception with the flag set, and every later call on that vector
    raises it again without loading or training. *)
Theorem predict_keeps_unusable_artifact (st : State) x m s e :
  is_trained (self st) = false ->
  diabetes_model_pkl (world st) = inr (m, s) ->
  fst (predict_infer x (loaded m s st)) = inl e ->
  forall n,
    predict x (Nat.iter n (fun a => snd (predict x a)) st)
      = (inl e, loaded m s st).
Proof.
  intros H Hp He.
  assert (H0 : predict x st = (inl e, loaded m s st)).
  { rewrite (predict_loads st x H Hp), predict_infer_run, He. reflexivity. }
  assert (H1 : predict x (loaded m s st) = (inl e, loaded m s st)).
  { rewrite (predict_trained (loaded m s st) x eq_refl), predict_infer_run, He.
    reflexivity. }
  intros [|n]; [exact H0|].
  assert (E : Nat.iter (S n) (fun a => snd (predict x a)) st = loaded m s st).
  { induction n as [|n IH]; cbn [Nat.iter nat_rect] in *.
    - rewrite H0. reflexivity.
    - rewrite IH, H1. reflexivity. }
  rewrite E. exact H1.
Qed.

(** A returned result is the dictionary of lines 132-138 for some label
    and probability. *)
Lemma predict_inr_graded (st : State) x r st' :
  predict x st = (inr r, st') -> exists label p, r = graded label p.
Proof.
  intros H. unfold predict in H. apply bind_inr in H.
  destruct H as (u & st1 & _ & H).
  apply predict_infer_inr in H. destruct H as (_ & label & p & _ & ->).
  exists label, p. reflexivity.
Qed.

Lemma graded_text (label : Z) (p : float) :
  result (graded label p) = "Diabetic" <-> label = 1.
Proof.
  cbn [graded result]. destruct (Z.eqb_spec label 1) as [E|E]; split; intros H;
    try reflexivity; try assumption; try discriminate H; contradiction.
Qed.

(** X11.  The text of a returned result is "Diabetic" exactly when the
    label is 1; every other label, whatever it is, reads
    "Non-Diabetic". *)
Theorem predict_result_text (st : State) x r st' :
  predict x st = (inr r, st') ->
  (result r = "Diabetic" <-> prediction r = 1) /\
  (result r = "Non-Diabetic" <-> prediction r <> 1).
Proof.
  intros H. apply predict_inr_graded in H. destruct H as (label & p & ->).
  split; [apply graded_text|].
  cbn [graded result prediction].
  destruct (Z.eqb_spec label 1) as [E|E]; split; intros H;
    try reflexivity; try assumption; try discriminate H; contradiction.
Qed.

(** X12.  When the classifier answers with fewer than two probability
    columns (a classifier fitted on one class), [predict] raises
    [IndexError] at line 119, after the label has been computed, and
    leaves the object as it was. *)
Theorem predict_short_probability_row (st : State) x scaled labels label proba row :
  is_trained (self st) = true ->
  scaler_transform (scaler (self st)) [x] = inr scaled ->
  svc_predict (model (self st)) scaled = inr labels ->
  nth_error labels 0 = Some label ->
  svc_predict_proba (model (self st)) scaled = inr proba ->
  nth_error proba 0 = Some row ->
  (List.length row < 2)%nat ->
  predict x st = (inl IndexError, st).
Proof.
  intros Ht Hs Hl Hl0 Hp Hp0 Hlen.
  rewrite (predict_trained st x Ht).
  unfold predict_infer, Py.bind, Py.get, Py.call, getitem.
  rewrite Hs, Hl, Hl0, Hp, Hp0.
  destruct (nth_error row 1) eqn:E; [| reflexivity].
  exfalso. assert (E' : nth_error row 1 <> None) by congruence.
  apply nth_error_Some in E'. lia.
Qed.


(** X14.  The tier does not check that its argument is a probability.
    Low is chosen exactly when [p < 0.3] and High exactly when
    [p < 0.7] fails, so a negative number is Low, a number above 1 is
    High and NaN, which compares false with everything, is High and
    red. *)
Theorem risk_tier_out_of_range (p : float) :
  (fst (risk_assessment p) = "Low" <-> (p <? f0_3)%py = true) /\
  (fst (risk_assessment p) = "Medium" <->
     (p <? f0_3)%py = false /\ (p <? f0_7)%py = true) /\
  (fst (risk_assessment p) = "High" <-> (p <? f0_7)%py = false) /\
  ((p <? f0_0)%py = true -> fst (risk_assessment p) = "Low") /\
  ((f1_0 <? p)%py = true -> fst (risk_assessment p) = "High") /\
  (p = PyFloat.nan ->
   fst (risk_assessment p) = "High" /\ get_risk_color p = "#dc3545").
Proof.
  assert (Hhigh : (p <? f0_7)%py = false -> fst (risk_assessment p) = "High").
  { intros H7. unfold risk_assessment.
    destruct (p <? f0_3)%py eqn:H3.
    - apply lt_0_3_lt_0_7 in H3. congruence.
    - rewrite H7. reflexivity. }
  split; [| split; [| split; [| split; [| split]]]].
  - unfold risk_assessment.
    destruct (p <? f0_3)%py; [| destruct (p <? f0_7)%py]; cbn [fst];
      split; intros H; try reflexivity; discriminate H.
  - unfold risk_assessment.
    destruct (p <? f0_3)%py; [| destruct (p <? f0_7)%py]; cbn [fst];
      split; intros H; try (split; reflexivity); try discriminate H;
      destruct H as [H1 H2]; discriminate.
  - split; [| exact Hhigh].
    unfold risk_assessment.
    destruct (p <? f0_3)%py eqn:H3; [| destruct (p <? f0_7)%py]; cbn [fst];
      intros H; try reflexivity; discriminate H.
  - intros H. unfold risk_assessment.
    rewrite (lt_0_lt_0_3 _ H). reflexivity.
  - intros H. apply Hhigh, gt_1_not_lt_0_7, H.
  - intros ->. split; reflexivity.
Qed.

End PredictTheorems.

(* ================================================================== *)
(** * More on plots and metrics *)

Section ReportTheorems.

Context {L : Libraries}.

(** X15.  [get_performance_plots] returns [None] while the flag is
    false, and never changes the object or the files.  After a training
    run that returned it draws the stored confusion matrix, the stored
    ROC curve with its AUC, and a bar chart of eight fixed importance
    values that do not depend on the classifier; it returns the three
    images when the three renderers return and raises the first
    renderer's exception otherwise. *)
Theorem get_performance_plots_outcomes :
  (forall st : State,
      is_trained (self st) = false ->
      get_performance_plots st = (inr None, st)) /\
  (forall st : State, snd (get_performance_plots st) = st) /\
  (forall (st : State) b st',
      train_model st = (inr b, st') ->
      exists cm fp tp au,
        conf_matrix (self st') = Some cm /\
        fpr (self st') = Some fp /\ tpr (self st') = Some tp /\
        roc_auc (self st') = Some au /\
        fst (get_performance_plots st') =
          match plot_confusion_matrix cm with
          | inl e => inl e
          | inr p1 =>
              match plot_roc_curve fp tp au with
              | inl e => inl e
              | inr p2 =>
                  match plot_feature_importance feature_labels importance with
                  | inl e => inl e
                  | inr p3 =>
                      inr (Some {| plot_cm := p1; plot_roc := p2;
                                   plot_importance := p3 |})
                  end
              end
          end).
Proof.
  split; [| split].
  - intros st H. unfold get_performance_plots, Py.bind, Py.get, Py.ret.
    rewrite H. reflexivity.
  - exact get_performance_plots_state.
  - intros st b st' H. apply train_model_inr in H.
    destruct H as (_ & df & ? & ? & ? & ? & ? & ? & ? & acc & cm & rep & au & fp & tp & H).
    destruct H as (_ & _ & _ & _ & _ & ->).
    exists cm, fp, tp, au. repeat (split; [reflexivity|]).
    unfold get_performance_plots, Py.bind, Py.get, Py.call, Py.ret, getattr.
    cbn [self is_trained negb conf_matrix fpr tpr roc_auc].
    destruct (plot_confusion_matrix cm); [reflexivity|].
    destruct (plot_roc_curve fp tp au); [reflexivity|].
    destruct (plot_feature_importance feature_labels importance); reflexivity.
Qed.

(** X16.  An object that got its classifier from the artifact has the
    flag set but none of the attributes that only [train_model] binds:
    after such a [predict] call, whether it returned or raised,
    [get_model_metrics] raises [AttributeError] for [accuracy] and
    [get_performance_plots] raises it for [conf_matrix]. *)
Theorem reports_after_artifact_load_raise (st : State) x m s :
  is_trained (self st) = false ->
  accuracy (self st) = None ->
  conf_matrix (self st) = None ->
  diabetes_model_pkl (world st) = inr (m, s) ->
  let st1 := snd (predict x st) in
  get_model_metrics st1 = (inl (AttributeError "accuracy"), st1) /\
  get_performance_plots st1 = (inl (AttributeError "conf_matrix"), st1).
Proof.
  intros H Ha Hc Hp. cbv zeta.
  rewrite predict_state, (predict_ensure_trained_loads st H Hp). cbn [snd].
  unfold get_model_metrics, get_performance_plots, Py.bind, Py.get, Py.call,
    getattr, loaded.
  cbn [self is_trained negb accuracy conf_matrix].
  rewrite Ha, Hc. split; reflexivity.
Qed.

End ReportTheorems.

(* ================================================================== *)
(** * Binary labels, through every call *)

Lemma preserves_call_bind {S A B : Type} (P : S -> Prop)
      (r : Result A) (k : A -> Py.M S B) :
  (forall a, r = inr a -> preserves P (k a)) ->
  preserves P (Py.bind (Py.call r) k).
Proof.
  intros Hk st H. unfold Py.bind, Py.call.
  destruct r as [e|a]; cbn [snd]; [exact H | exact (Hk a eq_refl st H)].
Qed.

Section BinaryInvariant.

Context {L : Libraries}.

Hypothesis classes_from_fit :
  forall (m m' : Classifier) (X : Matrix) (y : list Z),
    svc_fit m X y = inr m' -> incl (svc_classes m') y.
Hypothesis split_labels :
  forall (X X_train X_test : Matrix) (y y_train y_test : list Z),
    train_test_split X y = inr (X_train, X_test, y_train, y_test) ->
    incl y_train y.

Lemma fit_and_evaluate_kept_or_binary (m0 : Classifier) :
  preserves (fun st => binary_world (world st) /\ kept_or_binary m0 st)
            fit_and_evaluate.
Proof.
  intros st [Hw HK].
  assert (Hy : Forall binary_label
                 (Outcome match diabetes_csv (world st) with
                          | inr df => df
                          | inl _ => with_Outcome synthetic_data
                          end)).
  { eapply (loaded_table_binary st Hw).
    rewrite load_and_preprocess_data_eq. reflexivity. }
  unfold fit_and_evaluate.
  rewrite (bind_eq _ _ _ (load_and_preprocess_data_eq st)).
  revert Hy.
  generalize (match diabetes_csv (world st) with
              | inr df => df
              | inl _ => with_Outcome synthetic_data
              end).
  intros df Hy. cbv zeta.
  match goal with
  | |- binary_world (world (snd (?c st))) /\ _ =>
      apply (fun H : preserves
                       (fun s => binary_world (world s) /\ kept_or_binary m0 s) c
             => H st (conj Hw HK))
  end.
  apply preserves_call_bind.
  intros [[[X_train X_test] y_train] y_test] Hsplit.
  unfold set_model, set_scaler, set_is_trained, set_accuracy,
    set_conf_matrix, set_class_report, set_roc_auc, set_fpr, set_tpr, with_self.
  apply preserves_get_bind; intros st1.
  apply preserves_bind; [apply preserves_call | intros [fitted X_train_scaled]].
  apply preserves_bind; [apply preserves_modify; intros ? H; exact H|intros _].
  apply preserves_bind; [apply preserves_call | intros X_test_scaled].
  apply preserves_get_bind; intros st2.
  apply preserves_call_bind. intros clf Hfit.
  assert (Hclf : binary_classifier clf).
  { unfold binary_classifier.
    eapply Forall_incl; [eapply classes_from_fit; exact Hfit|].
    eapply Forall_incl; [eapply split_labels; exact Hsplit|].
    exact Hy. }
  apply preserves_bind;
    [apply preserves_modify; intros ? [H _]; split; [exact H | right; exact Hclf]
    | intros _].
  repeat lazymatch goal with
    | |- preserves _ (Py.ret _) => apply preserves_ret
    | |- preserves _ (Py.call _) => apply preserves_call
    | |- preserves _ (Py.bind _ _) => apply preserves_bind; [| intros ?]
    | |- preserves _ (Py.modify _) =>
        apply preserves_modify; intros ? H; exact H
    | |- preserves _ (let (_, _) := ?p in _) => destruct p
    end.
Qed.

Lemma fit_and_evaluate_inr_binary (st : State) u st1 :
  binary_world (world st) ->
  fit_and_evaluate st = (inr u, st1) ->
  binary_classifier (model (self st1)).
Proof.
  intros Hw H. unfold fit_and_evaluate in H.
  apply bind_inr in H. destruct H as (df & st0 & Hload & H).
  assert (Hy : Forall binary_label (Outcome df)).
  { eapply (loaded_table_binary st Hw). rewrite Hload. reflexivity. }
  rewrite load_and_preprocess_data_eq in Hload.
  inversion Hload; subst st0. clear Hload.
  cbv zeta in H.
  apply bind_inr in H. destruct H as ([[[Xtr Xte] ytr] yte] & sA & Hsplit & H).
  prim Hsplit.
  do 5 (ok_step H).
  apply bind_inr in H. destruct H as (clf & sB & Hfit & H).
  prim Hfit.
  do 14 (ok_step H).
  prim H. cbn [self model].
  unfold binary_classifier.
  eapply Forall_incl; [eapply classes_from_fit; eassumption|].
  eapply Forall_incl; [eapply split_labels; eassumption|].
  exact Hy.
Qed.

(** A training run, however it ends, keeps the surroundings and the
    object binary-labelled. *)
Lemma train_model_keeps_binary (st : State) :
  binary_world (world st) -> binary_self (self st) ->
  binary_world (world (snd (train_model st))) /\
  binary_self (self (snd (train_model st))).
Proof.
  intros Hw Hs.
  destruct (train_model st) as [[e|b] st'] eqn:Ht; cbn [snd].
  - pose proof (train_model_raise_world _ Ht) as W. rewrite W.
    split; [exact Hw|].
    pose proof (@fit_and_evaluate_kept_or_binary (model (self st)) st
                  (conj Hw (or_introl eq_refl))) as [_ K].
    rewrite train_model_split in Ht. apply bind_run in Ht.
    destruct Ht as [(e' & Hf & _) | ([] & st1 & Hf & Hsave)].
    + rewrite Hf in K. cbn [snd] in K.
      pose proof (fit_and_evaluate_flag _ Hf) as F.
      intros T. destruct K as [K | K]; [| exact K].
      rewrite K. apply Hs. rewrite <- F. exact T.
    + rewrite save_artifact_run in Hsave.
      destruct (dump_failure (world st1)); inversion Hsave; subst.
      intros _.
      exact (fit_and_evaluate_inr_binary _ Hw Hf).
  - destruct (@train_model_binary L classes_from_fit split_labels st b st' Hw Ht)
      as [Hm Hw'].
    split; [exact Hw' | intros _; exact Hm].
Qed.

Lemma invoke_keeps_binary (m : method) (st : State) :
  binary_world (world st) -> binary_self (self st) ->
  binary_world (world (invoke m st)) /\ binary_self (self (invoke m st)).
Proof.
  intros Hw Hs. destruct m as [| |x| |]; cbn [invoke].
  - rewrite load_and_preprocess_data_eq. split; assumption.
  - apply (@train_model_keeps_binary st); assumption.
  - rewrite predict_state.
    destruct (is_trained (self st)) eqn:Ht.
    + rewrite (predict_ensure_trained_trained st Ht). split; assumption.
    + destruct (diabetes_model_pkl (world st)) as [e|[m s]] eqn:Hp.
      * rewrite (predict_ensure_trained_trains st Ht Hp).
        pose proof (@train_model_keeps_binary st Hw Hs) as K.
        destruct (train_model st) as [[e'|b] st1]; exact K.
      * rewrite (predict_ensure_trained_loads st Ht Hp).
        split; [exact Hw|]. intros _. cbn [loaded self model snd].
        exact (proj2 Hw m s Hp).
  - rewrite get_performance_plots_state. split; assumption.
  - rewrite get_model_metrics_state. split; assumption.
Qed.

Lemma invoke_all_keeps_binary (ms : list method) (st : State) :
  binary_world (world st) -> binary_self (self st) ->
  binary_world (world (invoke_all ms st)) /\
  binary_self (self (invoke_all ms st)).
Proof.
  unfold invoke_all. revert st.
  induction ms as [|m ms IH]; intros st Hw Hs; cbn [fold_left].
  - split; assumption.
  - destruct (@invoke_keeps_binary m st Hw Hs) as [Hw' Hs']. apply IH; assumption.
Qed.

Hypothesis proba_in_unit :
  forall (m : Classifier) (X P : Matrix),
    svc_predict_proba m X = inr P ->
    Forall (Forall (fun p => in_unit p = true)) P.
Hypothesis labels_in_classes :
  forall (m : Classifier) (X : Matrix) (ys : list Z),
    svc_predict m X = inr ys -> Forall (fun y => In y (svc_classes m)) ys.

(** X26.  Under the contracts of scikit-learn, binary labels are an
    invariant of the object's whole life: starting from binary-labelled
    files and an object whose classifier is a two-label one once the
    flag is set, no sequence of method calls, whatever each returns or
    raises, leaves that kind of state; so every result [predict]
    returns afterwards has a label that is 0 or 1 and a probability in
    [0,1]. *)
Theorem binary_labels_invariant (ms : list method) (st : State) :
  binary_world (world st) ->
  binary_self (self st) ->
  binary_world (world (invoke_all ms st)) /\
  binary_self (self (invoke_all ms st)) /\
  forall x r st',
    predict x (invoke_all ms st) = (inr r, st') ->
    binary_label (prediction r) /\ in_unit (probability r) = true.
Proof.
  intros Hw Hs.
  destruct (@invoke_all_keeps_binary ms st Hw Hs) as [Hw1 Hs1].
  split; [exact Hw1|]. split; [exact Hs1|].
  intros x r st' H. unfold predict in H. apply bind_inr in H.
  destruct H as (u & st2 & He & H).
  destruct (@predict_ensure_trained_binary L classes_from_fit split_labels
              _ u st2 Hw1 Hs1 He) as (Hm & _ & _).
  apply predict_infer_inr in H. destruct H as (_ & label & p & Hc & ->).
  exact (@classifies_valid L proba_in_unit labels_in_classes _ _ _ _ _ Hm Hc).
Qed.

End BinaryInvariant.


(* ================================================================== *)
(** * The views, run *)

Lemma try_except_as_run {S A : Type}
      (body : Py.M S A) (handler : exn -> Py.M S A) st :
  try_except_as body handler st =
    match body st with
    | (inr a, st') => (inr a, st')
    | (inl e, st') => handler e st'
    end.
Proof. reflexivity. Qed.

Section ViewFacts.

Context {L : Libraries} {D : App.Database}.

Lemma on_model_run {A : Type} (c : M A) (sv : App.Server) :
  App.on_model c sv =
    (fst (c (App.diabetes_model sv)),
     {| App.diabetes_model := snd (c (App.diabetes_model sv));
        App.database := App.database sv |}).
Proof. unfold App.on_model. destruct (c (App.diabetes_model sv)); reflexivity. Qed.

Lemma on_database_run {A : Type} (c : App.Db -> Result A * App.Db) (sv : App.Server) :
  App.on_database c sv =
    (fst (c (App.database sv)),
     {| App.diabetes_model := App.diabetes_model sv;
        App.database := snd (c (App.database sv)) |}).
Proof. unfold App.on_database. destruct (c (App.database sv)); reflexivity. Qed.


Lemma prediction_body_converts (rq : App.Request) data v sv :
  App.request_method rq = App.POST ->
  App.request_get_json rq = inr data ->
  converts data v ->
  App.prediction_body rq sv = answer rq v sv.
Proof.
  intros Hm Hj (v1 & v2 & v3 & v4 & v5 & v6 & v7 & v8 & -> & H1 & H2 & H3 & H4 & H5 & H6 & H7 & H8).
  unfold App.prediction_body, answer. rewrite Hm, try_except_as_run.
  unfold Py.bind at 1. unfold Py.call at 1. rewrite Hj.
  unfold Py.bind at 1. unfold Py.call at 1. rewrite H1.
  unfold Py.bind at 1. unfold Py.call at 1. rewrite H2.
  unfold Py.bind at 1. unfold Py.call at 1. rewrite H3.
  unfold Py.bind at 1. unfold Py.call at 1. rewrite H4.
  unfold Py.bind at 1. unfold Py.call at 1. rewrite H5.
  unfold Py.bind at 1. unfold Py.call at 1. rewrite H6.
  unfold Py.bind at 1. unfold Py.call at 1. rewrite H7.
  unfold Py.bind at 1. unfold Py.call at 1. rewrite H8.
  cbv zeta. cbn [map snd features_of combine].
  unfold Py.bind at 1.
  destruct (App.on_model (predict [v1; v2; v3; v4; v5; v6; v7; v8]) sv)
    as [[e|r] sv1]; [reflexivity|].
  change (App.truthy r) with true. cbv iota.
  unfold Py.bind at 1. unfold Py.call at 1.
  destruct (App.session_getitem_user_id rq) as [e|uid]; [reflexivity|].
  unfold Py.bind at 1.
  match goal with
  | |- context [App.on_database ?c sv1] =>
      destruct (App.on_database c sv1) as [[e|u] sv2]; reflexivity
  end.
Qed.


Lemma prediction_body_first_failure (rq : App.Request) e sv :
  App.request_method rq = App.POST ->
  first_failure rq e ->
  App.prediction_body rq sv = (inr (App.jsonify_failure (App.str e)), sv).
Proof.
  intros Hm Hf. unfold App.prediction_body. rewrite Hm, try_except_as_run.
  destruct Hf as [Hj | (data & before & k & after & Hj & Hk & Hb & He)].
  - unfold Py.bind at 1. unfold Py.call at 1. rewrite Hj. reflexivity.
  - unfold Py.bind at 1. unfold Py.call at 1. rewrite Hj.
    repeat (destruct before as [|k' before];
            [ cbn [app] in Hk; inversion Hk; subst;
              unfold Py.bind at 1; unfold Py.call at 1; rewrite He; reflexivity
            | cbn [app] in Hk; inversion Hk; subst k'; clear Hk;
              match goal with H : _ = (before ++ _)%list |- _ => rename H into Hk end;
              apply Forall_cons_iff in Hb; destruct Hb as [[? Hv] Hb];
              unfold Py.bind at 1; unfold Py.call at 1; rewrite Hv; clear Hv ]).
Qed.

End ViewFacts.

Section ViewTheorems.

Context {L : Libraries} {D : App.Database}.

Lemma parse_cases (rq : App.Request) :
  (exists e, first_failure rq e) \/
  (exists data v, App.request_get_json rq = inr data /\ converts data v).
Proof.
  destruct (App.request_get_json rq) as [e|data] eqn:Hj.
  - left. exists e. left. exact Hj.
  - assert (Hleft : forall before k after e,
               ["pregnancies"; "glucose"; "blood_pressure"; "skin_thickness";
                "insulin"; "bmi"; "diabetes_pedigree"; "age"]
               = (before ++ k :: after)%list ->
               Forall (fun k' => exists v, data k' = inr v) before ->
               data k = inl e ->
               exists e, first_failure rq e).
    { intros before k after e Hk Hb He. exists e. right.
      exists data, before, k, after. repeat split; assumption. }
    destruct (data "pregnancies") as [e|v1] eqn:H1;
      [left; apply (Hleft [] "pregnancies" _ e eq_refl); [constructor | exact H1]|].
    destruct (data "glucose") as [e|v2] eqn:H2;
      [left; apply (Hleft ["pregnancies"] "glucose" _ e eq_refl);
       [repeat constructor; eexists; eassumption | exact H2]|].
    destruct (data "blood_pressure") as [e|v3] eqn:H3;
      [left; apply (Hleft ["pregnancies"; "glucose"] "blood_pressure" _ e eq_refl);
       [repeat constructor; eexists; eassumption | exact H3]|].
    destruct (data "skin_thickness") as [e|v4] eqn:H4;
      [left; apply (Hleft ["pregnancies"; "glucose"; "blood_pressure"]
                          "skin_thickness" _ e eq_refl);
       [repeat constructor; eexists; eassumption | exact H4]|].
    destruct (data "insulin") as [e|v5] eqn:H5;
      [left; apply (Hleft ["pregnancies"; "glucose"; "blood_pressure";
                           "skin_thickness"] "insulin" _ e eq_refl);
       [repeat constructor; eexists; eassumption | exact H5]|].
    destruct (data "bmi") as [e|v6] eqn:H6;
      [left; apply (Hleft ["pregnancies"; "glucose"; "blood_pressure";
                           "skin_thickness"; "insulin"] "bmi" _ e eq_refl);
       [repeat constructor; eexists; eassumption | exact H6]|].
    destruct (data "diabetes_pedigree") as [e|v7] eqn:H7;
      [left; apply (Hleft ["pregnancies"; "glucose"; "blood_pressure";
                           "skin_thickness"; "insulin"; "bmi"]
                          "diabetes_pedigree" _ e eq_refl);
       [repeat constructor; eexists; eassumption | exact H7]|].
    destruct (data "age") as [e|v8] eqn:H8;
      [left; apply (Hleft ["pregnancies"; "glucose"; "blood_pressure";
                           "skin_thickness"; "insulin"; "bmi";
                           "diabetes_pedigree"] "age" _ e eq_refl);
       [repeat constructor; eexists; eassumption | exact H8]|].
    right. exists data, [v1; v2; v3; v4; v5; v6; v7; v8].
    split; [reflexivity|].
    exists v1, v2, v3, v4, v5, v6, v7, v8. repeat split; assumption.
Qed.

(** What [answer] can be: an error text made from an exception, or the
    success body for the result [predict] returned, saved first. *)
Lemma answer_cases (rq : App.Request) v sv :
  (exists e, fst (answer rq v sv) = inr (App.jsonify_failure (App.str e))) \/
  (exists r st1 uid db1,
      predict v (App.diabetes_model sv) = (inr r, st1) /\
      App.session_user_id rq = Some uid /\
      App.save_prediction uid (features_of v) (result r) (probability r)
                          (risk_level r) (App.database sv) = (inr tt, db1) /\
      answer rq v sv =
        (inr (App.jsonify_prediction (prediction r) (probability r)
                (risk_level r) (recommendation r) (result r)),
         {| App.diabetes_model := st1; App.database := db1 |})).
Proof.
  unfold answer. rewrite on_model_run.
  destruct (predict v (App.diabetes_model sv)) as [[e|r] st1] eqn:Hp;
    cbn [fst snd]; [left; exists e; reflexivity|].
  unfold App.session_getitem_user_id.
  destruct (App.session_user_id rq) as [uid|] eqn:Hu;
    [| left; eexists; reflexivity].
  rewrite on_database_run. cbn [App.database App.diabetes_model].
  destruct (App.save_prediction uid (features_of v) (result r) (probability r)
              (risk_level r) (App.database sv)) as [[e|[]] db1] eqn:Hs;
    cbn [fst snd]; [left; exists e; reflexivity|].
  right. exists r, st1, uid, db1. repeat split. exact Hs.
Qed.

(** X17.  The two views never let an exception escape: whatever the
    request and the state of the process, [prediction] and
    [get_performance] return a response.  The answer "Prediction failed"
    of line 133 is never given, since the dictionary [predict] returns
    is never empty. *)
Theorem views_always_answer (rq : App.Request) (sv : App.Server) :
  (exists r, fst (App.prediction rq sv) = inr r /\
             r <> App.jsonify_failure (App.literal "Prediction failed")) /\
  (exists r, fst (App.get_performance rq sv) = inr r).
Proof.
  split.
  - unfold App.prediction, App.login_required.
    destruct (App.session_user_id rq) as [uid|];
      [| eexists; split; [reflexivity | discriminate]].
    destruct (App.request_method rq) eqn:Hm;
      try (unfold App.prediction_body; rewrite Hm;
           eexists; split; [reflexivity | discriminate]).
    destruct (parse_cases rq) as [[e Hf] | (data & v & Hj & Hc)].
    + rewrite (@prediction_body_first_failure _ _ rq e sv Hm Hf).
      eexists; split; [reflexivity | discriminate].
    + rewrite (@prediction_body_converts _ _ rq data v sv Hm Hj Hc).
      destruct (answer_cases rq v sv) as [[e He] | (r & st1 & u & db1 & _ & _ & _ & He)].
      * rewrite He. eexists; split; [reflexivity | discriminate].
      * rewrite He. eexists; split; [reflexivity | discriminate].
  - unfold App.get_performance, App.login_required.
    destruct (App.session_user_id rq) as [uid|]; [| eexists; reflexivity].
    unfold App.get_performance_body. rewrite try_except_as_run.
    unfold Py.bind, Py.ret.
    destruct (App.on_model get_model_metrics sv) as [[e|m] sv1];
      [eexists; reflexivity|].
    destruct (App.on_model get_performance_plots sv1) as [[e|p] sv2];
      eexists; reflexivity.
Qed.

(** X18.  A request whose session holds no ['user_id'] is redirected to
    the login page with the requested URL as [next], by either view, and
    leaves the process as it was: it cannot start a training run, load
    the artifact or write to the database. *)
Theorem anonymous_request_leaves_server (rq : App.Request) (sv : App.Server) :
  App.session_user_id rq = None ->
  App.prediction rq sv =
    (inr (App.redirect_login "Please log in to access this page."
                             (App.request_url rq)), sv) /\
  App.get_performance rq sv =
    (inr (App.redirect_login "Please log in to access this page."
                             (App.request_url rq)), sv).
Proof.
  intros H. unfold App.prediction, App.get_performance, App.login_required.
  rewrite H. split; reflexivity.
Qed.

(** X19.  A POST to [prediction] whose body does not parse, or one of
    whose eight fields does not convert to a float, is answered with the
    text of the first such exception, in the order pregnancies, glucose,
    blood pressure, skin thickness, insulin, BMI, pedigree, age; the
    model is not called and nothing is saved. *)
Theorem prediction_bad_input_skips_model (rq : App.Request) uid e (sv : App.Server) :
  App.request_method rq = App.POST ->
  App.session_user_id rq = Some uid ->
  first_failure rq e ->
  App.prediction rq sv = (inr (App.jsonify_failure (App.str e)), sv).
Proof.
  intros Hm Hu Hf. unfold App.prediction, App.login_required. rewrite Hu.
  apply prediction_body_first_failure; assumption.
Qed.

(** X20.  A success answer of [prediction] is the result of a
    [predict] call on the eight converted fields, in the order of the
    training columns, and that result has been saved for the session's
    user before the answer is given.  Its tier and advice are those of
    its probability, its text is "Diabetic" exactly for label 1, and
    the colour [get_risk_color] gives the probability is green, yellow
    or red as the tier is Low, Medium or High. *)
Theorem prediction_success_is_consistent_and_saved
        (rq : App.Request) (sv : App.Server) label p tier advice text :
  fst (App.prediction rq sv)
    = inr (App.jsonify_prediction label p tier advice text) ->
  (exists data v uid st1 db1,
      App.request_method rq = App.POST /\
      App.session_user_id rq = Some uid /\
      App.request_get_json rq = inr data /\ converts data v /\
      predict v (App.diabetes_model sv) = (inr (graded label p), st1) /\
      App.save_prediction uid (features_of v) text p tier (App.database sv)
        = (inr tt, db1) /\
      snd (App.prediction rq sv)
        = {| App.diabetes_model := st1; App.database := db1 |}) /\
  (tier, advice) = risk_assessment p /\
  (text = "Diabetic" <-> label = 1) /\
  (get_risk_color p = "#28a745" <-> tier = "Low") /\
  (get_risk_color p = "#ffc107" <-> tier = "Medium") /\
  (get_risk_color p = "#dc3545" <-> tier = "High").
Proof.
  intros H. unfold App.prediction, App.login_required in *.
  destruct (App.session_user_id rq) as [uid|] eqn:Hu; [| discriminate H].
  destruct (App.request_method rq) eqn:Hm;
    try (unfold App.prediction_body in H; rewrite Hm in H; discriminate H).
  destruct (parse_cases rq) as [[e Hf] | (data & v & Hj & Hc)].
  { rewrite (@prediction_body_first_failure _ _ rq e sv Hm Hf) in H. discriminate H. }
  rewrite (@prediction_body_converts _ _ rq data v sv Hm Hj Hc) in *.
  destruct (answer_cases rq v sv)
    as [[e He] | (r & st1 & u & db1 & Hp & Hu' & Hs & He)].
  { rewrite He in H. discriminate H. }
  rewrite He in *. cbn [fst snd] in *. inversion H; subst. clear H.
  assert (u = uid) by congruence. subst u.
  pose proof (predict_grades_probability _ _ Hp) as Hg.
  assert (Hr : r = graded (prediction r) (probability r)).
  { destruct (predict_inr_graded _ _ Hp) as (l & q & ->). reflexivity. }
  assert (Ht : result r = "Diabetic" <-> prediction r = 1).
  { rewrite Hr. apply graded_text. }
  split.
  - exists data, v, uid, st1, db1. rewrite <- Hr. repeat split; assumption.
  - split; [exact Hg|]. split; [exact Ht|].
    assert (E : risk_level r = fst (risk_assessment (probability r)))
      by (rewrite <- Hg; reflexivity).
    rewrite E. clear.
    unfold get_risk_color, risk_assessment.
    destruct (probability r <? f0_3)%py; [| destruct (probability r <? f0_7)%py];
      cbn [fst]; repeat split; intros H; try reflexivity; discriminate H.
Qed.

(** X21.  What a POST to [prediction] does to the model stays, even
    when the request is then answered with an error: once the eight
    fields have converted, the global object is left as [predict] left
    it (loaded, or trained, or as it was), and when [predict] itself
    raises the answer is the text of that exception and nothing is
    saved. *)
Theorem prediction_keeps_lazy_initialisation
        (rq : App.Request) uid data v (sv : App.Server) :
  App.request_method rq = App.POST ->
  App.session_user_id rq = Some uid ->
  App.request_get_json rq = inr data ->
  converts data v ->
  App.diabetes_model (snd (App.prediction rq sv))
    = snd (predict v (App.diabetes_model sv)) /\
  (forall e,
      fst (predict v (App.diabetes_model sv)) = inl e ->
      App.prediction rq sv =
        (inr (App.jsonify_failure (App.str e)),
         {| App.diabetes_model := snd (predict v (App.diabetes_model sv));
            App.database := App.database sv |})).
Proof.
  intros Hm Hu Hj Hc. unfold App.prediction, App.login_required. rewrite Hu.
  rewrite (@prediction_body_converts _ _ rq data v sv Hm Hj Hc).
  unfold answer. rewrite on_model_run.
  destruct (predict v (App.diabetes_model sv)) as [[e|r] st1]; cbn [fst snd].
  - split; [reflexivity|]. intros e' E. inversion E; subst. reflexivity.
  - split; [| intros e E; discriminate E].
    unfold App.session_getitem_user_id. rewrite Hu.
    rewrite on_database_run. cbn [App.database App.diabetes_model].
    destruct (fst _) as [e|[]]; reflexivity.
Qed.

(** X22.  [get_performance] never changes the process.  For a
    logged-in user it answers success with no metrics and no plots while
    the model's flag is false, and answers with the text of
    [AttributeError] for [accuracy] when the flag is set but the metrics
    were never bound (the model came from the artifact). *)
Theorem get_performance_outcomes (rq : App.Request) (sv : App.Server) :
  snd (App.get_performance rq sv) = sv /\
  (forall uid,
      App.session_user_id rq = Some uid ->
      is_trained (self (App.diabetes_model sv)) = false ->
      fst (App.get_performance rq sv)
        = inr (App.jsonify_performance None None)) /\
  (forall uid,
      App.session_user_id rq = Some uid ->
      is_trained (self (App.diabetes_model sv)) = true ->
      accuracy (self (App.diabetes_model sv)) = None ->
      fst (App.get_performance rq sv)
        = inr (App.jsonify_failure (App.str (AttributeError "accuracy")))).
Proof.
  assert (Hrun : App.get_performance_body rq sv =
                 (match fst (get_model_metrics (App.diabetes_model sv)) with
                  | inl e => inr (App.jsonify_failure (App.str e))
                  | inr m =>
                      match fst (get_performance_plots (App.diabetes_model sv)) with
                      | inl e => inr (App.jsonify_failure (App.str e))
                      | inr p => inr (App.jsonify_performance m p)
                      end
                  end, sv)).
  { unfold App.get_performance_body. rewrite try_except_as_run.
    unfold Py.bind, Py.ret. rewrite on_model_run, get_model_metrics_state.
    destruct sv as [st db]. cbn [App.diabetes_model App.database].
    destruct (fst (get_model_metrics st)) as [e|m]; [reflexivity|].
    rewrite on_model_run, get_performance_plots_state.
    cbn [App.diabetes_model App.database].
    destruct (fst (get_performance_plots st)) as [e|p]; reflexivity. }
  unfold App.get_performance, App.login_required.
  split; [| split].
  - destruct (App.session_user_id rq); [rewrite Hrun|]; reflexivity.
  - intros uid Hu Ht. rewrite Hu, Hrun. cbn [fst].
    unfold get_model_metrics, get_performance_plots, Py.bind, Py.get, Py.ret.
    rewrite Ht. reflexivity.
  - intros uid Hu Ht Ha. rewrite Hu, Hrun. cbn [fst].
    unfold get_model_metrics, Py.bind, Py.get, Py.call, getattr.
    rewrite Ht, Ha. reflexivity.
Qed.

(** X27.  The five most recent predictions shown on the dashboard are
    the first five of the user's list, or all of it when it is shorter;
    the test for an empty list changes nothing. *)
Theorem recent_predictions_is_prefix {A : Type} (predictions : list A) :
  App.recent_predictions predictions = firstn 5 predictions /\
  List.length (App.recent_predictions predictions)
    = Nat.min 5 (List.length predictions) /\
  predictions = (App.recent_predictions predictions ++ skipn 5 predictions)%list.
Proof.
  assert (E : App.recent_predictions predictions = firstn 5 predictions)
    by (destruct predictions; reflexivity).
  rewrite E. split; [reflexivity|]. split.
  - apply length_firstn.
  - symmetry. apply firstn_skipn.
Qed.

End ViewTheorems.


(* ================================================================== *)
(** * The matcher is the pattern's language *)

Module ReFacts.

Import Re.

Local Open Scope list_scope.

Lemma matches_Cat_iff (r1 r2 : regex) (s : text) :
  matches (Cat r1 r2) s <->
  exists s1 s2, s = s1 ++ s2 /\ matches r1 s1 /\ matches r2 s2.
Proof.
  split.
  - intros H. inversion H; subst. eexists _, _. repeat split; assumption.
  - intros (s1 & s2 & -> & H1 & H2). exact (matches_Cat H1 H2).
Qed.

Lemma nullable_spec (r : regex) : nullable r = true <-> matches r [].
Proof.
  induction r as [| |p|r1 IH1 r2 IH2|r1 IH1 r2 IH2|r IH]; cbn [nullable].
  - split; [discriminate | intros H; inversion H].
  - split; [intros _; constructor | reflexivity].
  - split; [discriminate | intros H; inversion H].
  - rewrite andb_true_iff, IH1, IH2. split.
    + intros [H1 H2]. exact (matches_Cat H1 H2).
    + intros H. apply matches_Cat_iff in H.
      destruct H as (s1 & s2 & E & H1 & H2). symmetry in E.
      apply app_eq_nil in E. destruct E; subst. split; assumption.
  - rewrite orb_true_iff, IH1, IH2. split.
    + intros [H|H]; [apply matches_Alt_l | apply matches_Alt_r]; exact H.
    + intros H. inversion H; subst; [left | right]; assumption.
  - split; [intros _; constructor | reflexivity].
Qed.

Lemma matches_Star_cons_inv (r : regex) (c : N) (s : text) :
  matches (Star r) (c :: s) ->
  exists s1 s2, s = s1 ++ s2 /\ matches r (c :: s1) /\ matches (Star r) s2.
Proof.
  intros H. remember (Star r) as q eqn:Eq. remember (c :: s) as w eqn:Ew.
  revert c s Ew.
  induction H as [| | | | | |r' s1 s2 H1 _ H2 IH2]; intros c0 s0 Ew;
    try discriminate Eq; try discriminate Ew.
  inversion Eq; subst r'. destruct s1 as [|c1 s1].
  - cbn [app] in Ew. exact (IH2 eq_refl c0 s0 Ew).
  - cbn [app] in Ew. inversion Ew; subst.
    exists s1, s2. repeat split; assumption.
Qed.

Lemma deriv_spec (r : regex) (c : N) (s : text) :
  matches (deriv c r) s <-> matches r (c :: s).
Proof.
  revert s.
  induction r as [| |p|r1 IH1 r2 IH2|r1 IH1 r2 IH2|r IH]; intros s; cbn [deriv].
  - split; intros H; inversion H.
  - split; intros H; inversion H.
  - destruct (p c) eqn:E; split; intros H; inversion H; subst.
    + constructor. exact E.
    + constructor.
    + congruence.
  - assert (Hcat : matches (Cat (deriv c r1) r2) s <->
                   exists s1 s2, s = s1 ++ s2 /\
                                 matches r1 (c :: s1) /\ matches r2 s2).
    { rewrite matches_Cat_iff. split.
      - intros (s1 & s2 & E & H1 & H2).
        exists s1, s2. rewrite <- IH1. repeat split; assumption.
      - intros (s1 & s2 & E & H1 & H2). apply IH1 in H1.
        exists s1, s2. repeat split; assumption. }
    assert (Hgoal : matches (Cat r1 r2) (c :: s) <->
                    (exists s1 s2, s = s1 ++ s2 /\
                                   matches r1 (c :: s1) /\ matches r2 s2) \/
                    (matches r1 [] /\ matches r2 (c :: s))).
    { rewrite matches_Cat_iff. split.
      - intros (s1 & s2 & E & H1 & H2).
        destruct s1 as [|c1 s1]; cbn [app] in E.
        + right. subst s2. split; assumption.
        + inversion E; subst. left. exists s1, s2. repeat split; assumption.
      - intros [(s1 & s2 & -> & H1 & H2) | [H1 H2]].
        + exists (c :: s1), s2. repeat split; assumption.
        + exists [], (c :: s). repeat split; assumption. }
    rewrite Hgoal. destruct (nullable r1) eqn:En.
    + apply nullable_spec in En. split.
      * intros H. inversion H; subst.
        -- left. apply Hcat. assumption.
        -- right. split; [exact En | apply IH2; assumption].
      * intros [H | [_ H]].
        -- apply matches_Alt_l, Hcat, H.
        -- apply matches_Alt_r, IH2, H.
    + rewrite Hcat. split; [intros H; left; exact H|].
      intros [H | [H _]]; [exact H|].
      apply nullable_spec in H. congruence.
  - split; intros H; inversion H; subst.
    + apply matches_Alt_l, IH1. assumption.
    + apply matches_Alt_r, IH2. assumption.
    + apply matches_Alt_l, IH1. assumption.
    + apply matches_Alt_r, IH2. assumption.
  - split.
    + intros H. apply matches_Cat_iff in H.
      destruct H as (s1 & s2 & -> & H1 & H2).
      apply IH in H1. exact (matches_Star_cons H1 H2).
    + intros H. apply matches_Star_cons_inv in H.
      destruct H as (s1 & s2 & -> & H1 & H2). apply IH in H1.
      exact (matches_Cat H1 H2).
Qed.

Lemma fullmatch_spec (r : regex) (s : text) :
  fullmatch r s = true <-> matches r s.
Proof.
  revert r. induction s as [|c s IH]; intros r; cbn [fullmatch].
  - apply nullable_spec.
  - rewrite IH. apply deriv_spec.
Qed.

(** ** Patterns over one character class *)

Lemma matches_Class_iff (p : N -> bool) (s : text) :
  matches (Class p) s <-> exists c, s = [c] /\ p c = true.
Proof.
  split.
  - intros H. inversion H; subst. eexists. split; [reflexivity | assumption].
  - intros (c & -> & H). constructor. exact H.
Qed.

Lemma matches_Star_Class (p : N -> bool) (s : text) :
  matches (Star (Class p)) s <-> Forall (fun c => p c = true) s.
Proof.
  split.
  - intros H. remember (Star (Class p)) as q eqn:Eq.
    induction H as [| | | | | |r s1 s2 H1 _ H2 IH2]; try discriminate Eq.
    + constructor.
    + inversion Eq; subst r. inversion H1; subst.
      constructor; [assumption | exact (IH2 eq_refl)].
  - intros H. induction H as [|c s Hc _ IH].
    + constructor.
    + exact (matches_Star_cons (matches_Class p c Hc) IH).
Qed.

Lemma matches_AtLeast_Class (n : nat) (p : N -> bool) (s : text) :
  matches (AtLeast n (Class p)) s <->
  (n <= List.length s)%nat /\ Forall (fun c => p c = true) s.
Proof.
  revert s. induction n as [|n IH]; intros s; cbn [AtLeast].
  - rewrite matches_Star_Class. split; [intros H; split; [lia | exact H] | tauto].
  - rewrite matches_Cat_iff. split.
    + intros (s1 & s2 & -> & H1 & H2). apply matches_Class_iff in H1.
      destruct H1 as (c & -> & Hc). apply IH in H2. destruct H2 as [Hn Hf].
      cbn. split; [lia | constructor; assumption].
    + intros [Hn Hf]. destruct s as [|c s]; [cbn in Hn; lia|].
      inversion Hf; subst. exists [c], s. split; [reflexivity|]. split.
      * constructor. assumption.
      * apply IH. cbn in Hn. split; [lia | assumption].
Qed.

Lemma matches_Plus_Class (p : N -> bool) (s : text) :
  matches (Plus (Class p)) s <->
  s <> [] /\ Forall (fun c => p c = true) s.
Proof.
  change (Plus (Class p)) with (AtLeast 1 (Class p)).
  rewrite matches_AtLeast_Class. split; intros [H1 H2]; (split; [| exact H2]).
  - intros ->. cbn in H1. lia.
  - destruct s; [contradiction | cbn; lia].
Qed.

Lemma before_final_newline_spec (s s' : text) :
  before_final_newline s = Some s' <-> s = s' ++ [10%N].
Proof.
  unfold before_final_newline. split.
  - intros H. destruct (rev s) as [|c t] eqn:E; [discriminate H|].
    destruct c as [|q]; [discriminate H|].
    do 4 (destruct q as [q|q|]; try discriminate H).
    inversion H; subst.
    rewrite <- (rev_involutive s), E. reflexivity.
  - intros ->. rewrite rev_app_distr. cbn [rev app].
    rewrite rev_involutive. reflexivity.
Qed.

End ReFacts.

(* ================================================================== *)
(** * What [validate_email] accepts *)

Section AddressTheorems.

Import Re.

Local Open Scope list_scope.


Lemma pattern_matches (s : text) :
  matches pattern s <->
  exists l d t, s = l ++ 64%N :: d ++ 46%N :: t /\ address l d t.
Proof.
  unfold pattern, address. split.
  - intros H.
    apply ReFacts.matches_Cat_iff in H. destruct H as (l & s1 & -> & Hl & H).
    apply ReFacts.matches_Cat_iff in H. destruct H as (a & s2 & -> & Ha & H).
    apply ReFacts.matches_Cat_iff in H. destruct H as (d & s3 & -> & Hd & H).
    apply ReFacts.matches_Cat_iff in H. destruct H as (b & t & -> & Hb & Ht).
    apply ReFacts.matches_Class_iff in Ha. destruct Ha as (ca & -> & Ea).
    apply ReFacts.matches_Class_iff in Hb. destruct Hb as (cb & -> & Eb).
    apply N.eqb_eq in Ea, Eb. subst ca cb.
    apply ReFacts.matches_Plus_Class in Hl, Hd.
    apply ReFacts.matches_AtLeast_Class in Ht.
    exists l, d, t. split; [reflexivity|]. tauto.
  - intros (l & d & t & -> & Hl1 & Hl2 & Hd1 & Hd2 & Ht1 & Ht2).
    apply ReFacts.matches_Cat_iff. exists l, (64%N :: d ++ 46%N :: t).
    split; [reflexivity|].
    split; [apply ReFacts.matches_Plus_Class; split; assumption|].
    apply ReFacts.matches_Cat_iff. exists [64%N], (d ++ 46%N :: t).
    split; [reflexivity|]. split; [constructor; reflexivity|].
    apply ReFacts.matches_Cat_iff. exists d, (46%N :: t).
    split; [reflexivity|].
    split; [apply ReFacts.matches_Plus_Class; split; assumption|].
    apply ReFacts.matches_Cat_iff. exists [46%N], t.
    split; [reflexivity|]. split; [constructor; reflexivity|].
    apply ReFacts.matches_AtLeast_Class. split; assumption.
Qed.

Lemma validate_email_iff (email : text) :
  validate_email email = true <->
  matches pattern email \/
  exists s, email = s ++ [10%N] /\ matches pattern s.
Proof.
  unfold validate_email, match_to_dollar.
  rewrite orb_true_iff, ReFacts.fullmatch_spec. split.
  - intros [H | H]; [left; exact H|].
    destruct (before_final_newline email) as [s|] eqn:E; [| discriminate H].
    apply ReFacts.before_final_newline_spec in E.
    apply ReFacts.fullmatch_spec in H. right. exists s. split; assumption.
  - intros [H | (s & E & H)]; [left; exact H|].
    apply ReFacts.before_final_newline_spec in E. rewrite E.
    right. apply ReFacts.fullmatch_spec. exact H.
Qed.

(** What the pattern matches ends in a letter. *)
Lemma pattern_ends_in_letter (s : text) :
  matches pattern s -> exists s' c, s = s' ++ [c] /\ letter c = true.
Proof.
  intros H. apply pattern_matches in H.
  destruct H as (l & d & t & -> & _ & _ & _ & _ & Ht1 & Ht2).
  destruct (exists_last (l := t)) as (t' & c & ->).
  { intros ->. cbn in Ht1. lia. }
  exists (l ++ 64%N :: d ++ 46%N :: t'), c. split.
  - rewrite <- !app_assoc. cbn [app]. rewrite <- app_assoc. reflexivity.
  - apply Forall_app in Ht2. destruct Ht2 as [_ Hc]. inversion Hc; assumption.
Qed.

Lemma pattern_not_before_newline (s : text) :
  ~ matches pattern (s ++ [10%N]).
Proof.
  intros H. apply pattern_ends_in_letter in H.
  destruct H as (s' & c & E & Hc). apply app_inj_tail in E.
  destruct E as [_ <-]. discriminate Hc.
Qed.

Lemma count_occ_none (p : N -> bool) (x : N) (s : text) :
  p x = false -> Forall (fun c => p c = true) s ->
  count_occ N.eq_dec s x = 0%nat.
Proof.
  intros Hx H. induction H as [|c s Hc _ IH]; [reflexivity|].
  cbn [count_occ]. destruct (N.eq_dec c x) as [->|_]; [congruence | exact IH].
Qed.

Lemma Forall_weaken (p q : N -> bool) (s : text) :
  (forall c, p c = true -> q c = true) ->
  Forall (fun c => p c = true) s -> Forall (fun c => q c = true) s.
Proof. intros H Hs. eapply Forall_impl; [| exact Hs]. exact H. Qed.

Lemma validate_email_accepted (email : text) :
  validate_email email = true ->
  exists l d t nl,
    email = l ++ 64%N :: d ++ 46%N :: t ++ nl /\
    address l d t /\ (nl = [] \/ nl = [10%N]).
Proof.
  rewrite validate_email_iff.
  intros [H | (s & -> & H)]; apply pattern_matches in H;
    destruct H as (l & d & t & -> & Ha).
  - exists l, d, t, []. rewrite app_nil_r. auto.
  - exists l, d, t, [10%N]. split; [| auto].
    rewrite <- !app_assoc. cbn [app]. rewrite <- app_assoc. reflexivity.
Qed.

(** X23.  [validate_email] accepts exactly the strings made of a
    non-empty local part over [a-zA-Z0-9._%+-], one at sign, a non-empty
    domain part over [a-zA-Z0-9.-], a dot and at least two ASCII
    letters, optionally followed by one newline, which [$] lets
    through. *)
Theorem validate_email_shape (email : text) :
  validate_email email = true <->
  exists l d t nl,
    email = l ++ 64%N :: d ++ 46%N :: t ++ nl /\
    address l d t /\ (nl = [] \/ nl = [10%N]).
Proof.
  split; [apply validate_email_accepted|].
  rewrite validate_email_iff.
  intros (l & d & t & nl & -> & Ha & [-> | ->]).
  - left. apply pattern_matches. exists l, d, t. rewrite app_nil_r. auto.
  - right. exists (l ++ 64%N :: d ++ 46%N :: t). split.
    + rewrite <- !app_assoc. cbn [app]. rewrite <- app_assoc. reflexivity.
    + apply pattern_matches. exists l, d, t. auto.
Qed.

(** X24.  An accepted address holds exactly one at sign and at least
    six characters, one of them a dot, and each of its characters is an
    ASCII letter, a digit, one of [. _ % + -], the at sign, or the final
    newline. *)
Theorem validate_email_one_at (email : text) :
  validate_email email = true ->
  count_occ N.eq_dec email 64%N = 1%nat /\
  (6 <= List.length email)%nat /\
  In 46%N email /\
  Forall (fun c => local_char c = true \/ c = 64%N \/ c = 10%N) email.
Proof.
  intros H. apply validate_email_accepted in H.
  destruct H as (l & d & t & nl & -> & (Hl1 & Hl2 & Hd1 & Hd2 & Ht1 & Ht2) & Hnl).
  assert (Hd3 : Forall (fun c => local_char c = true) d).
  { eapply Forall_weaken; [| exact Hd2]. intros c E. unfold local_char.
    unfold domain_char in E.
    destruct (letter c), (in_range 48 57 c), (c =? 46)%N, (c =? 45)%N;
      cbn in *; rewrite ?orb_true_r; try reflexivity; discriminate E. }
  assert (Ht3 : Forall (fun c => local_char c = true) t).
  { eapply Forall_weaken; [| exact Ht2]. intros c E. unfold local_char.
    rewrite E. reflexivity. }
  assert (Hn0 : count_occ N.eq_dec nl 64%N = 0%nat)
    by (destruct Hnl as [-> | ->]; reflexivity).
  split; [| split; [| split]].
  - rewrite count_occ_app. cbn [count_occ].
    destruct (N.eq_dec 64 64) as [_|N]; [| contradiction N; reflexivity].
    rewrite count_occ_app. cbn [count_occ].
    destruct (N.eq_dec 46 64) as [N|_]; [discriminate N|].
    rewrite count_occ_app.
    rewrite (count_occ_none local_char 64%N eq_refl Hl2).
    rewrite (count_occ_none local_char 64%N eq_refl Hd3).
    rewrite (count_occ_none local_char 64%N eq_refl Ht3).
    rewrite Hn0. reflexivity.
  - rewrite length_app. cbn [List.length]. rewrite length_app.
    cbn [List.length]. rewrite length_app.
    destruct l; [contradiction|]. destruct d; [contradiction|].
    cbn [List.length]. lia.
  - apply in_or_app. right. right. apply in_or_app. right. left. reflexivity.
  - apply Forall_app. split.
    { eapply Forall_impl; [| exact Hl2]. intros c E. left. exact E. }
    constructor; [right; left; reflexivity|].
    apply Forall_app. split.
    { eapply Forall_impl; [| exact Hd3]. intros c E. left. exact E. }
    constructor; [left; reflexivity|].
    apply Forall_app. split.
    { eapply Forall_impl; [| exact Ht3]. intros c E. left. exact E. }
    destruct Hnl as [-> | ->]; [constructor|].
    constructor; [right; right; reflexivity | constructor].
Qed.

(** X25.  What the pattern matches from end to end is accepted as it
    is and also with one newline appended, but not with two. *)
Theorem validate_email_final_newline (email : text) :
  fullmatch pattern email = true ->
  validate_email email = true /\
  validate_email (email ++ [10%N]) = true /\
  validate_email (email ++ [10%N; 10%N]) = false.
Proof.
  intros H. apply ReFacts.fullmatch_spec in H. split; [| split].
  - apply validate_email_iff. left. exact H.
  - apply validate_email_iff. right. exists email. split; [reflexivity | exact H].
  - destruct (validate_email (email ++ [10%N; 10%N])) eqn:E; [| reflexivity].
    exfalso. apply validate_email_iff in E.
    change [10%N; 10%N] with ([10%N] ++ [10%N]) in E.
    rewrite app_assoc in E.
    destruct E as [E | (s & E & Hs)].
    + exact (@pattern_not_before_newline _ E).
    + apply app_inj_tail in E. destruct E as [<- _].
      exact (@pattern_not_before_newline _ Hs).
Qed.

End AddressTheorems.

(* ================================================================== *)
(** * The executable instance meets the contracts *)

Module ToyFacts.

Lemma last_In (l : list Z) (d : Z) : l <> [] -> In (last l d) l.
Proof.
  induction l as [|a [|b l] IH]; intros H.
  - contradiction.
  - left. reflexivity.
  - right. apply IH. discriminate.
Qed.

Lemma score_in_unit (row : list float) : in_unit (Toy.score row) = true.
Proof.
  unfold Toy.score. destruct (in_unit (hd PyFloat.nan row)) eqn:E.
  - exact E.
  - vm_compute. reflexivity.
Qed.

Lemma proba_in_unit :
  forall (m : @Classifier Toy.libraries) (X P : Matrix),
    svc_predict_proba m X = inr P ->
    Forall (Forall (fun p => in_unit p = true)) P.
Proof.
  intros m X P H. cbn in H. unfold Toy.predict_proba in H.
  destruct m; [discriminate H|]. inversion H; subst.
  apply Forall_forall. intros row Hin. apply in_map_iff in Hin.
  destruct Hin as (r & <- & _).
  constructor; [vm_compute; reflexivity|].
  constructor; [apply score_in_unit | constructor].
Qed.

Lemma labels_in_classes :
  forall (m : @Classifier Toy.libraries) (X : Matrix) (ys : list Z),
    svc_predict m X = inr ys -> Forall (fun y => In y (svc_classes m)) ys.
Proof.
  intros m X ys H. cbn in H. unfold Toy.predict in H.
  destruct m as [|c m]; [discriminate H|]. inversion H; subst.
  apply Forall_forall. intros y Hin. apply in_map_iff in Hin.
  destruct Hin as (r & <- & _). cbn [svc_classes Toy.libraries].
  unfold Toy.label. destruct (f0_5 <=? Toy.score r)%py.
  - apply last_In. discriminate.
  - left. reflexivity.
Qed.

Lemma classes_from_fit :
  forall (m m' : @Classifier Toy.libraries) (X : Matrix) (y : list Z),
    svc_fit m X y = inr m' -> incl (svc_classes m') y.
Proof.
  intros m m' X y H. cbn in H. unfold Toy.fit in H.
  destruct (List.length (nodup Z.eq_dec y) <? 2)%nat; [discriminate H|].
  inversion H; subst. intros a Ha. cbn in Ha.
  apply nodup_In in Ha. exact Ha.
Qed.

Lemma split_labels :
  forall (X X_train X_test : Matrix) (y y_train y_test : list Z),
    @train_test_split Toy.libraries X y
      = inr (X_train, X_test, y_train, y_test) ->
    incl y_train y.
Proof.
  intros X Xtr Xte y ytr yte H. cbn in H. unfold Toy.split in H.
  inversion H; subst. intros a Ha.
  rewrite <- (firstn_skipn (List.length y * 4 / 5) y).
  apply in_or_app. left. exact Ha.
Qed.

Lemma transform_checks_fitted :
  forall (s : @Scaler Toy.libraries) (X : Matrix),
    scaler_fitted s = false -> scaler_transform s X = inl NotFittedError.
Proof. intros [] X H; [discriminate H | reflexivity]. Qed.

Lemma randint_length :
  forall lo hi n (g : @Rng Toy.libraries),
    List.length (fst (randint lo hi n g)) = n.
Proof.
  intros. cbn. unfold Toy.draw_int. cbn [fst].
  rewrite length_map, length_seq. reflexivity.
Qed.

Lemma normal_length :
  forall loc scale n (g : @Rng Toy.libraries),
    List.length (fst (normal loc scale n g)) = n.
Proof.
  intros. cbn. unfold Toy.draw_normal. cbn [fst].
  rewrite length_map, length_seq. reflexivity.
Qed.

Lemma exponential_length :
  forall scale n (g : @Rng Toy.libraries),
    List.length (fst (exponential scale n g)) = n.
Proof.
  intros. cbn. unfold Toy.draw_exponential. cbn [fst].
  apply repeat_length.
Qed.

Lemma empty_world_binary : binary_world Toy.empty_world.
Proof. split; intros; discriminate. Qed.

End ToyFacts.

(* ================================================================== *)
(** * The theorems at concrete inputs *)

(** A run is the pair of what it returned and the state it left. *)
Lemma run_pair {S A : Type} (c : Py.M S A) (st : S) (a : Result A) :
  fst (c st) = a -> c st = (a, snd (c st)).
Proof. intros <-. destruct (c st); reflexivity. Qed.

Module Witness.

#[local] Existing Instance Toy.libraries.

(** Evaluate what a run returned; the state it left is named, not
    computed. *)
Ltac run_vm := apply run_pair; vm_compute; reflexivity.

Lemma train_model_fresh :
  train_model Toy.fresh = (inr true, Toy.trained).
Proof. unfold Toy.trained. run_vm. Qed.

Lemma trained_is_trained : is_trained (self Toy.trained) = true.
Proof. exact (train_model_sets_trained _ train_model_fresh). Qed.

Lemma predict_fresh (p : float) (r : PredictionResult) :
  fst (predict_infer (Toy.vector p) Toy.trained) = inr r ->
  predict (Toy.vector p) Toy.fresh = (inr r, Toy.trained).
Proof.
  intros H.
  rewrite (@predict_trains _ Toy.fresh (Toy.vector p) Toy.missing true
             Toy.trained eq_refl eq_refl train_model_fresh).
  rewrite (run_pair (predict_infer (Toy.vector p)) Toy.trained H).
  rewrite predict_infer_state. reflexivity.
Qed.

Lemma load_falls_back_to_synthesis_witness :
  diabetes_csv (world Toy.fresh) = inl Toy.missing /\
  load_and_preprocess_data Toy.fresh
    = (inr (with_Outcome synthetic_data), Toy.fresh).
Proof.
  split; [reflexivity|].
  apply (@load_falls_back_to_synthesis Toy.libraries Toy.fresh Toy.missing).
  reflexivity.
Defined.

Lemma artifact_round_trip_witness :
  train_model Toy.fresh = (inr true, Toy.trained) /\
  is_trained (@__init__ Toy.libraries) = false /\
  fst (predict (Toy.vector f0_69)
               {| self := __init__; world := world Toy.trained |})
    = fst (predict (Toy.vector f0_69) Toy.trained).
Proof.
  split; [exact train_model_fresh|]. split; [reflexivity|].
  exact (@artifact_round_trip Toy.libraries Toy.fresh true Toy.trained
           __init__ (Toy.vector f0_69) train_model_fresh eq_refl).
Defined.


Lemma predict_unfitted_scaler_raises_witness :
  predict_ensure_trained Toy.beside_unfitted
    = (inr tt, loaded Toy.two_classes Toy.unfitted Toy.beside_unfitted) /\
  scaler_fitted
    (scaler (self (loaded Toy.two_classes Toy.unfitted Toy.beside_unfitted)))
    = false /\
  predict (Toy.vector f0_5) Toy.beside_unfitted
    = (inl NotFittedError,
       loaded Toy.two_classes Toy.unfitted Toy.beside_unfitted).
Proof.
  assert (H : predict_ensure_trained Toy.beside_unfitted
              = (inr tt, loaded Toy.two_classes Toy.unfitted
                           Toy.beside_unfitted))
    by (apply predict_ensure_trained_loads; reflexivity).
  split; [exact H|]. split; [reflexivity|].
  apply (@predict_unfitted_scaler_raises Toy.libraries).
  - intros [] X E; [discriminate E | reflexivity].
  - exact H.
  - reflexivity.
Defined.

Lemma classifies_trained_0_7 :
  classifies (model (self Toy.trained)) (scaler (self Toy.trained))
             (Toy.vector f0_7) 1 f0_7.
Proof.
  exists [Toy.vector f0_7], [1], [[f0_5; f0_7]], [f0_5; f0_7].
  split; [vm_compute; reflexivity|].
  split; [vm_compute; reflexivity|].
  split; [reflexivity|].
  split; [vm_compute; reflexivity|].
  split; reflexivity.
Defined.

Lemma predict_fresh_0_7 :
  predict (Toy.vector f0_7) Toy.fresh = (inr (graded 1 f0_7), Toy.trained).
Proof. apply predict_fresh. vm_compute. reflexivity. Defined.

Lemma fresh_world_binary : binary_world (world Toy.fresh).
Proof. split; intros; discriminate. Defined.

Lemma fresh_self_binary : binary_self (self Toy.fresh).
Proof. intros E. discriminate E. Defined.

Lemma predict_result_ranges_witness :
  binary_world (world Toy.fresh) /\
  binary_self (self Toy.fresh) /\
  predict (Toy.vector f0_7) Toy.fresh = (inr (graded 1 f0_7), Toy.trained) /\
  in_unit (probability (graded 1 f0_7)) = true /\
  binary_label (prediction (graded 1 f0_7)).
Proof.
  split; [exact fresh_world_binary|]. split; [exact fresh_self_binary|].
  split; [exact predict_fresh_0_7|].
  exact (proj1 (@predict_result_ranges Toy.libraries
                  ToyFacts.proba_in_unit ToyFacts.labels_in_classes
                  ToyFacts.classes_from_fit ToyFacts.split_labels
                  Toy.fresh (Toy.vector f0_7) (graded 1 f0_7) Toy.trained
                  fresh_world_binary fresh_self_binary predict_fresh_0_7)).
Defined.


Lemma synthetic_labels_threshold_median_witness :
  diabetes_csv (world Toy.fresh) = inl Toy.missing /\
  exists df,
    load_and_preprocess_data Toy.fresh = (inr df, Toy.fresh) /\
    nrows (features df) = 1000%nat /\
    List.length (Outcome df) = 1000%nat.
Proof.
  split; [reflexivity|].
  destruct (@synthetic_labels_threshold_median Toy.libraries
              ToyFacts.randint_length ToyFacts.normal_length
              ToyFacts.exponential_length Toy.fresh Toy.missing eq_refl)
    as (df & Hload & Hrows & _ & Hout & _).
  exists df. split; [exact Hload|]. split; [exact Hrows | exact Hout].
Defined.

End Witness.


(* ================================================================== *)
(** * The further theorems at concrete inputs *)

Module Runs.

#[local] Existing Instance Toy.libraries.



Lemma train_model_saves_memory_pair_witness :
  train_model Toy.fresh = (inr true, Toy.trained) /\
  diabetes_model_pkl (world Toy.trained)
    = inr (model (self Toy.trained), scaler (self Toy.trained)).
Proof.
  split; [exact Witness.train_model_fresh|].
  exact (proj1 (@train_model_saves_memory_pair Toy.libraries Toy.fresh true
                  Toy.trained Witness.train_model_fresh)).
Defined.



Lemma train_model_ignores_artifact_and_clock_witness :
  self Toy.fresh = self Toy.beside_unfitted /\
  diabetes_csv (world Toy.fresh) = diabetes_csv (world Toy.beside_unfitted) /\
  dump_failure (world Toy.fresh) = dump_failure (world Toy.beside_unfitted) /\
  fst (train_model Toy.fresh) = fst (train_model Toy.beside_unfitted).
Proof.
  split; [reflexivity|]. split; [reflexivity|]. split; [reflexivity|].
  exact (proj1 (@train_model_ignores_artifact_and_clock Toy.libraries
                  Toy.fresh Toy.beside_unfitted eq_refl eq_refl eq_refl)).
Defined.

Lemma predict_keeps_unusable_artifact_witness :
  is_trained (self Toy.beside_unfitted) = false /\
  diabetes_model_pkl (world Toy.beside_unfitted)
    = inr (Toy.two_classes, Toy.unfitted) /\
  fst (predict_infer (Toy.vector f0_5)
         (loaded Toy.two_classes Toy.unfitted Toy.beside_unfitted))
    = inl NotFittedError /\
  predict (Toy.vector f0_5)
          (Nat.iter 3 (fun a => snd (predict (Toy.vector f0_5) a))
                    Toy.beside_unfitted)
    = (inl NotFittedError,
       loaded Toy.two_classes Toy.unfitted Toy.beside_unfitted).
Proof.
  split; [reflexivity|]. split; [reflexivity|]. split; [reflexivity|].
  exact (@predict_keeps_unusable_artifact Toy.libraries Toy.beside_unfitted
           (Toy.vector f0_5) Toy.two_classes Toy.unfitted NotFittedError
           eq_refl eq_refl eq_refl 3%nat).
Defined.

Lemma predict_result_text_witness :
  predict (Toy.vector f0_7) Toy.fresh = (inr (graded 1 f0_7), Toy.trained) /\
  (result (graded 1 f0_7) = "Diabetic" <-> prediction (graded 1 f0_7) = 1).
Proof.
  split; [exact Witness.predict_fresh_0_7|].
  exact (proj1 (@predict_result_text Toy.libraries Toy.fresh (Toy.vector f0_7)
                  (graded 1 f0_7) Toy.trained Witness.predict_fresh_0_7)).
Defined.

Lemma predict_short_probability_row_witness :
  is_trained (self Scenario.one_class) = true /\
  nth_error [f1_0] 1 = None /\
  predict (Toy.vector f0_7) Scenario.one_class
    = (inl IndexError, Scenario.one_class).
Proof.
  split; [reflexivity|]. split; [reflexivity|].
  apply (@predict_short_probability_row Scenario.one_class_libraries
           Scenario.one_class (Toy.vector f0_7) [Toy.vector f0_7] [1] 1
           [[f1_0]] [f1_0]).
  - reflexivity.
  - reflexivity.
  - vm_compute. reflexivity.
  - reflexivity.
  - reflexivity.
  - reflexivity.
  - cbn. lia.
Defined.


Lemma reports_after_artifact_load_raise_witness :
  is_trained (self Toy.beside_unfitted) = false /\
  accuracy (self Toy.beside_unfitted) = None /\
  conf_matrix (self Toy.beside_unfitted) = None /\
  diabetes_model_pkl (world Toy.beside_unfitted)
    = inr (Toy.two_classes, Toy.unfitted) /\
  get_model_metrics (snd (predict (Toy.vector f0_5) Toy.beside_unfitted))
    = (inl (AttributeError "accuracy"),
       snd (predict (Toy.vector f0_5) Toy.beside_unfitted)).
Proof.
  split; [reflexivity|]. split; [reflexivity|]. split; [reflexivity|].
  split; [reflexivity|].
  exact (proj1 (@reports_after_artifact_load_raise Toy.libraries
                  Toy.beside_unfitted (Toy.vector f0_5) Toy.two_classes
                  Toy.unfitted eq_refl eq_refl eq_refl eq_refl)).
Defined.

Lemma binary_labels_invariant_witness :
  binary_world (world Toy.fresh) /\
  binary_self (self Toy.fresh) /\
  binary_self
    (self (invoke_all [call_predict (Toy.vector f0_7); call_get_model_metrics;
                       call_train_model] Toy.fresh)).
Proof.
  split; [exact Witness.fresh_world_binary|].
  split; [exact Witness.fresh_self_binary|].
  exact (proj1 (proj2
           (@binary_labels_invariant Toy.libraries
              ToyFacts.classes_from_fit ToyFacts.split_labels
              ToyFacts.proba_in_unit ToyFacts.labels_in_classes
              [call_predict (Toy.vector f0_7); call_get_model_metrics;
               call_train_model]
              Toy.fresh Witness.fresh_world_binary Witness.fresh_self_binary))).
Defined.

(** ** The views *)

#[local] Existing Instance Scenario.rows.

Lemma anonymous_request_leaves_server_witness :
  App.session_user_id (Scenario.post None (Scenario.form f0_7)) = None /\
  App.prediction (Scenario.post None (Scenario.form f0_7)) Scenario.server
    = (inr (App.redirect_login "Please log in to access this page."
                               "http://localhost/prediction"),
       Scenario.server).
Proof.
  split; [reflexivity|].
  exact (proj1 (@anonymous_request_leaves_server Toy.libraries Scenario.rows
                  (Scenario.post None (Scenario.form f0_7)) Scenario.server
                  eq_refl)).
Defined.

Lemma first_failure_without_insulin :
  first_failure (Scenario.post (Some 7) Scenario.form_without_insulin)
                (OtherError "ValueError").
Proof.
  right.
  exists Scenario.form_without_insulin,
         ["pregnancies"; "glucose"; "blood_pressure"; "skin_thickness"],
         "insulin", ["bmi"; "diabetes_pedigree"; "age"].
  split; [reflexivity|]. split; [reflexivity|]. split; [| reflexivity].
  repeat constructor; eexists; reflexivity.
Defined.

Lemma prediction_bad_input_skips_model_witness :
  App.request_method (Scenario.post (Some 7) Scenario.form_without_insulin)
    = App.POST /\
  first_failure (Scenario.post (Some 7) Scenario.form_without_insulin)
                (OtherError "ValueError") /\
  App.prediction (Scenario.post (Some 7) Scenario.form_without_insulin)
                 Scenario.cold_server
    = (inr (App.jsonify_failure (App.str (OtherError "ValueError"))),
       Scenario.cold_server).
Proof.
  split; [reflexivity|]. split; [exact first_failure_without_insulin|].
  exact (@prediction_bad_input_skips_model Toy.libraries Scenario.rows
           (Scenario.post (Some 7) Scenario.form_without_insulin) 7
           (OtherError "ValueError") Scenario.cold_server
           eq_refl eq_refl first_failure_without_insulin).
Defined.

Lemma form_converts (p : float) : converts (Scenario.form p) (Toy.vector p).
Proof.
  exists p, (PyFloat.of_int 120), (PyFloat.of_int 70), (PyFloat.of_int 29),
         (PyFloat.of_int 155), (PyFloat.of_int 32), (PyFloat.of_int 1),
         (PyFloat.of_int 40).
  repeat split.
Defined.

Lemma predict_trained_0_7 :
  predict (Toy.vector f0_7) Toy.trained = (inr (graded 1 f0_7), Toy.trained).
Proof.
  rewrite (predict_trained Toy.trained (Toy.vector f0_7) Witness.trained_is_trained).
  apply predict_infer_returns. exact Witness.classifies_trained_0_7.
Qed.

Lemma prediction_answers_0_7 :
  App.prediction (Scenario.post (Some 7) (Scenario.form f0_7)) Scenario.server
  = (inr (App.jsonify_prediction 1 f0_7 "High"
            "Immediate consultation with healthcare provider recommended"
            "Diabetic"),
     {| App.diabetes_model := Toy.trained;
        App.database :=
          [(7, features_of (Toy.vector f0_7), "Diabetic", f0_7, "High")] |}).
Proof.
  change (App.prediction (Scenario.post (Some 7) (Scenario.form f0_7))
                         Scenario.server)
    with (App.prediction_body (Scenario.post (Some 7) (Scenario.form f0_7))
                              Scenario.server).
  rewrite (@prediction_body_converts Toy.libraries Scenario.rows
             (Scenario.post (Some 7) (Scenario.form f0_7)) (Scenario.form f0_7)
             (Toy.vector f0_7) Scenario.server eq_refl eq_refl (form_converts f0_7)).
  unfold answer. rewrite on_model_run.
  change (App.diabetes_model Scenario.server) with Toy.trained.
  rewrite predict_trained_0_7. cbn [fst snd].
  change (App.session_getitem_user_id (Scenario.post (Some 7) (Scenario.form f0_7)))
    with (@inr exn Z 7).
  cbv iota. rewrite on_database_run.
  cbn [App.database App.diabetes_model App.save_prediction Scenario.rows fst snd].
  assert (E : risk_assessment f0_7 =
              ("High", "Immediate consultation with healthcare provider recommended"))
    by (vm_compute; reflexivity).
  cbn [graded prediction probability risk_level recommendation result].
  rewrite E. reflexivity.
Qed.

Lemma prediction_success_is_consistent_and_saved_witness :
  fst (App.prediction (Scenario.post (Some 7) (Scenario.form f0_7))
                      Scenario.server)
    = inr (App.jsonify_prediction 1 f0_7 "High"
             "Immediate consultation with healthcare provider recommended"
             "Diabetic") /\
  get_risk_color f0_7 = "#dc3545".
Proof.
  assert (H : fst (App.prediction (Scenario.post (Some 7) (Scenario.form f0_7))
                                  Scenario.server)
              = inr (App.jsonify_prediction 1 f0_7 "High"
                       "Immediate consultation with healthcare provider recommended"
                       "Diabetic"))
    by (rewrite prediction_answers_0_7; reflexivity).
  split; [exact H|].
  exact (proj2 (proj2 (proj2 (proj2 (proj2 (proj2
           (@prediction_success_is_consistent_and_saved Toy.libraries
              Scenario.rows (Scenario.post (Some 7) (Scenario.form f0_7))
              Scenario.server 1 f0_7 "High"
              "Immediate consultation with healthcare provider recommended"
              "Diabetic" H)))))) eq_refl).
Defined.

Lemma prediction_keeps_lazy_initialisation_witness :
  converts (Scenario.form f0_5) (Toy.vector f0_5) /\
  App.diabetes_model
    (snd (App.prediction (Scenario.post (Some 7) (Scenario.form f0_5))
                         Scenario.cold_server))
    = snd (predict (Toy.vector f0_5) Toy.beside_unfitted).
Proof.
  split; [exact (form_converts f0_5)|].
  exact (proj1 (@prediction_keeps_lazy_initialisation Toy.libraries
                  Scenario.rows (Scenario.post (Some 7) (Scenario.form f0_5))
                  7 (Scenario.form f0_5) (Toy.vector f0_5) Scenario.cold_server
                  eq_refl eq_refl eq_refl (form_converts f0_5))).
Defined.

(** ** Addresses *)

Lemma validate_email_one_at_witness :
  validate_email (codepoints "user@example.com") = true /\
  count_occ N.eq_dec (codepoints "user@example.com") 64%N = 1%nat.
Proof.
  split; [vm_compute; reflexivity|].
  exact (proj1 (@validate_email_one_at (codepoints "user@example.com")
                  eq_refl)).
Defined.

Lemma validate_email_final_newline_witness :
  Re.fullmatch pattern (codepoints "user@example.com") = true /\
  validate_email (codepoints "user@example.com" ++ [10%N])%list = true /\
  validate_email (codepoints "user@example.com" ++ [10%N; 10%N])%list = false.
Proof.
  split; [vm_compute; reflexivity|].
  exact (proj2 (@validate_email_final_newline (codepoints "user@example.com")
                  eq_refl)).
Defined.

End Runs.
